(** * Nearest polling units: the resolution pipeline of [app.py] and [app2.py]

    A shallow embedding of the two Streamlit entry points and of the library
    calls they make (pandas frames, [requests.post], [geopy.geodesic]),
    followed by the properties of the pipeline
    geodesic pre-filter -> road-distance refinement -> ranking. *)

From Stdlib Require Import String ZArith QArith Qround Qabs Bool Lia List.
From Stdlib Require Import Permutation Sorted.
Import ListNotations.

(** ** Python floats

    Distances and durations are Python floats.  Only their order matters to
    the pipeline, so a float is an exact rational or [float('inf')]; NaN and
    negative infinity never arise on the paths modelled here. *)

Inductive pyfloat : Type :=
| Fin (q : Q)
| Inf.

Definition fle (a b : pyfloat) : bool :=
  match a, b with
  | _, Inf => true
  | Inf, Fin _ => false
  | Fin p, Fin q => Qle_bool p q
  end.

(** ** Exceptions and outcomes *)

Inductive Exn : Type :=
| ValueError
| KeyError
| IndexError
| TypeError
| NameError
| JSONDecodeError
| ConnectionError
| Timeout.

(** A call returns a value, raises, or never returns. *)
Inductive Outcome (A : Type) : Type :=
| Ok (a : A)
| Raise (e : Exn)
| Hang.

Arguments Ok {A} a.
Arguments Raise {A} e.
Arguments Hang {A}.

(** ** The routing provider's wire format *)

Record Segment : Type := mkSegment {
  distance : option pyfloat;
  duration : option pyfloat
}.

Record Properties : Type := mkProperties {
  segments : option (list Segment)
}.

Record Feature : Type := mkFeature {
  properties : option Properties;
  path : list (Q * Q)
}.

(** The parsed payload, down to the members the code subscripts.  A member
    may be missing and a list may be empty; the two leaves are numbers.  Of
    the members the code never reads only the names are kept: they decide
    whether the object is empty. *)
Record GeoJSON : Type := mkObject {
  features : option (list Feature);
  other_members : list string
}.

(** An object with no member besides ["features"], if it has that one. *)
Definition mkGeoJSON (features : option (list Feature)) : GeoJSON :=
  mkObject features [].

(** A body that parses: JSON [null], which Python reads as [None], or an
    object.  (A body that is a list, a number or a string is not
    represented.) *)
Inductive JsonValue : Type :=
| JNull
| JObject (g : GeoJSON).

Record Headers : Type := mkHeaders {
  Authorization : option string;
  Content_Type : string
}.

Record Body : Type := mkBody {
  coordinates : list (Q * Q);
  format : string
}.

Record Request : Type := mkRequest {
  url : string;
  json : Body;
  headers : Headers;
  timeout : option Q
}.

(** [content] is [None] for a body that is not JSON. *)
Record Response : Type := mkAnswer {
  status_code : Z;
  text : string;
  content : option JsonValue
}.

(** A response whose body is an object, or is not JSON at all. *)
Definition mkResponse (status_code : Z) (text : string) (body : option GeoJSON)
  : Response :=
  mkAnswer status_code text (option_map JObject body).

(** The object a response carries, when it carries one. *)
Definition payload (r : Response) : option GeoJSON :=
  match content r with
  | Some (JObject g) => Some g
  | _ => None
  end.

(** What the provider does with one request. *)
Inductive Behaviour : Type :=
| Answers (r : Response)
| Refuses
| Silent.

(** ** Frames

    A row of the polling-unit table.  The columns the code attaches later
    are optional: [None] is a column the frame does not have. *)

Record Point : Type := mkPoint {
  geom_x : Q;
  geom_y : Q
}.

Record Row : Type := mkRow {
  index : nat;
  name : string;
  ward : string;
  lga : string;
  state : string;
  geometry : Point;
  geo_distance_m : option pyfloat;
  road_distance_m : option pyfloat;
  duration_s : option pyfloat;
  route_geojson : option (option GeoJSON);
  Distance_m : option pyfloat
}.

Definition Frame : Type := list Row.

Definition ref : Type := nat.

Inductive UiEvent : Type :=
| RoutingApiError (status : Z) (body : string)
| RoutingRequestFailed (e : Exn).

(** The process state: the frames allocated so far (a frame's address is its
    position), the requests sent to the provider, the messages shown. *)
Record World : Type := mkWorld {
  heap : list Frame;
  wire : list Request;
  screen : list UiEvent
}.

(** ** The monad of effects *)

Definition M (A : Type) : Type := World -> World * Outcome A.

Definition ret {A} (a : A) : M A := fun w => (w, Ok a).

Definition bind {A B} (m : M A) (f : A -> M B) : M B :=
  fun w =>
    match m w with
    | (w1, Ok a) => f a w1
    | (w1, Raise e) => (w1, Raise e)
    | (w1, Hang) => (w1, Hang)
    end.

Definition raise {A} (e : Exn) : M A := fun w => (w, Raise e).

(** [try: m  except Exception as e: h e] *)
Definition try_except {A} (m : M A) (h : Exn -> M A) : M A :=
  fun w =>
    match m w with
    | (w1, Raise e) => h e w1
    | r => r
    end.

Notation "x <- m ;; k" := (bind m (fun x => k))
  (at level 61, m at next level, right associativity).
Notation "m ;;; k" := (bind m (fun _ => k))
  (at level 61, right associativity).

(** [for a in l: f a], collecting the results. *)
Fixpoint for_each {A B} (f : A -> M B) (l : list A) : M (list B) :=
  match l with
  | [] => ret []
  | a :: l' => b <- f a ;; bs <- for_each f l' ;; ret (b :: bs)
  end.

Definition lift {A} (r : Exn + A) : M A :=
  match r with
  | inl e => raise e
  | inr a => ret a
  end.

(** ** Heap primitives *)

Definition deref (r : ref) : M Frame :=
  fun w =>
    match nth_error (heap w) r with
    | Some f => (w, Ok f)
    | None => (w, Raise NameError)
    end.

Definition new (f : Frame) : M ref :=
  fun w => (mkWorld (heap w ++ [f]) (wire w) (screen w), Ok (length (heap w))).

Fixpoint update {A} (l : list A) (i : nat) (a : A) : list A :=
  match l, i with
  | [], _ => []
  | _ :: l', O => a :: l'
  | b :: l', S i' => b :: update l' i' a
  end.

Definition store (r : ref) (f : Frame) : M unit :=
  fun w => (mkWorld (update (heap w) r f) (wire w) (screen w), Ok tt).

Definition st_error (e : UiEvent) : M unit :=
  fun w => (mkWorld (heap w) (wire w) (screen w ++ [e]), Ok tt).

(** ** pandas *)

(** [frame[col]] as a list of floats; [None] when the column is absent. *)
Fixpoint column (col : Row -> option pyfloat) (f : Frame) : option (list pyfloat) :=
  match f with
  | [] => Some []
  | r :: f' =>
      match col r, column col f' with
      | Some d, Some ds => Some (d :: ds)
      | _, _ => None
      end
  end.

Definition value (col : Row -> option pyfloat) (r : Row) : pyfloat :=
  match col r with
  | Some d => d
  | None => Inf
  end.

Fixpoint insert_by {A} (key : A -> pyfloat) (a : A) (l : list A) : list A :=
  match l with
  | [] => [a]
  | b :: l' => if fle (key a) (key b) then a :: l else b :: insert_by key a l'
  end.

(** Ascending order, first occurrence first among equal keys. *)
Definition stable_sort {A} (key : A -> pyfloat) (l : list A) : list A :=
  fold_right (insert_by key) [] l.

(** [frame[col] = values]: the column is written in place on every row; a
    list of the wrong length is a [ValueError]. *)
Fixpoint zip_with {A} (upd : Row -> A -> Row) (f : Frame) (vs : list A) : option Frame :=
  match f, vs with
  | [], [] => Some []
  | r :: f', v :: vs' =>
      match zip_with upd f' vs' with
      | Some g => Some (upd r v :: g)
      | None => None
      end
  | _, _ => None
  end.

Definition setitem {A} (upd : Row -> A -> Row) (r : ref) (vs : list A) : M unit :=
  f <- deref r ;;
  match zip_with upd f vs with
  | Some g => store r g
  | None => raise ValueError
  end.

Definition set_geo_distance_m (r : Row) (d : pyfloat) : Row :=
  mkRow (index r) (name r) (ward r) (lga r) (state r) (geometry r)
        (Some d) (road_distance_m r) (duration_s r) (route_geojson r) (Distance_m r).

Definition set_road_distance_m (r : Row) (d : pyfloat) : Row :=
  mkRow (index r) (name r) (ward r) (lga r) (state r) (geometry r)
        (geo_distance_m r) (Some d) (duration_s r) (route_geojson r) (Distance_m r).

Definition set_duration_s (r : Row) (d : pyfloat) : Row :=
  mkRow (index r) (name r) (ward r) (lga r) (state r) (geometry r)
        (geo_distance_m r) (road_distance_m r) (Some d) (route_geojson r) (Distance_m r).

Definition set_route_geojson (r : Row) (g : option GeoJSON) : Row :=
  mkRow (index r) (name r) (ward r) (lga r) (state r) (geometry r)
        (geo_distance_m r) (road_distance_m r) (duration_s r) (Some g) (Distance_m r).

Definition set_Distance_m (r : Row) (d : pyfloat) : Row :=
  mkRow (index r) (name r) (ward r) (lga r) (state r) (geometry r)
        (geo_distance_m r) (road_distance_m r) (duration_s r) (route_geojson r) (Some d).

(** [frame.copy()]: a new frame with the same rows. *)
Definition copy (r : ref) : M ref :=
  f <- deref r ;; new f.

(** What [frame.apply(fn, axis=1)] gives: the results of [fn], one per
    row, as a Series; or, for a frame without rows, where [fn] is not
    called, a frame (a copy of the empty frame). *)
Inductive Applied (A : Type) : Type :=
| AsSeries (values : list A)
| AsDataFrame (f : Frame).

Arguments AsSeries {A} values.
Arguments AsDataFrame {A} f.

Definition apply_rows {A} (fn : Row -> Exn + A) (f : Frame) : M (Applied A) :=
  match f with
  | [] => ret (AsDataFrame f)
  | _ :: _ => vs <- for_each (fun row => lift (fn row)) f ;; ret (AsSeries vs)
  end.

(** [frame[col] = value] for the value of an [apply]: a Series is written
    as its values are; a frame cannot be written to one column, which is a
    [ValueError]. *)
Definition setitem_applied {A} (upd : Row -> A -> Row) (r : ref) (v : Applied A)
  : M unit :=
  match v with
  | AsSeries vs => setitem upd r vs
  | AsDataFrame _ => raise ValueError
  end.

(** [frame.nsmallest(k, col)] with the default [keep='first']: a new frame
    holding the [k] rows of smallest [col], ascending, rows of equal [col]
    in their order of appearance; nothing for [k <= 0]. *)
Definition nsmallest (k : Z) (col : Row -> option pyfloat) (r : ref) : M ref :=
  f <- deref r ;;
  match column col f with
  | None => raise KeyError
  | Some _ =>
      new (if (k <=? 0)%Z then [] else firstn (Z.to_nat k) (stable_sort (value col) f))
  end.

(** [frame.head(n)]: the first [n] rows, or all but the last [-n] rows for a
    negative [n]; a new frame. *)
Definition head (n : Z) (r : ref) : M ref :=
  f <- deref r ;;
  new (if (0 <=? n)%Z then firstn (Z.to_nat n) f
       else firstn (length f - Z.to_nat (- n)) f).

(** [frame.iterrows()] *)
Definition iterrows (r : ref) : M (list (nat * Row)) :=
  f <- deref r ;; ret (map (fun row => (index row, row)) f).

(** What [frame.sort_values(col)] promises with its default [kind]
    ('quicksort'): the rows rearranged in ascending order of [col].  pandas
    documents only 'mergesort' and 'stable' as keeping the order of rows of
    equal [col], so the interface says nothing about ties. *)
Record SortValues : Type := mkSortValues {
  order_by : (Row -> pyfloat) -> list Row -> list Row;
  order_by_perm : forall key l, Permutation l (order_by key l);
  order_by_sorted :
    forall key l, Sorted (fun a b => fle (key a) (key b) = true) (order_by key l)
}.

(** ** numpy's quicksort

    [sort_values] orders the rows by [argsort] with its default [kind],
    'quicksort', which numpy runs for doubles as [aquicksort]
    (npysort/quicksort.cpp, the portable path): an introsort on the array
    [tosort] of positions, by the keys [v].  A stretch of more than 17
    positions is partitioned around the median of its first, middle and
    last key; a shorter one is sorted by insertion. *)



Section Aquicksort.

Variable v : list pyfloat.












End Aquicksort.





Definition ORS_DIRECTIONS_URL : string :=
  "https://api.openrouteservice.org/v2/directions/driving-car/geojson".

(** app2.py binds the same name to another endpoint. *)
Module app2.
Definition ORS_DIRECTIONS_URL : string :=
  "https://api.openrouteservice.org/v2/directions/driving-car".
End app2.

(** [Series.round(2)] read in exact arithmetic: to the nearest hundredth,
    halves to even.  (numpy computes [rint(x * 100) / 100] in doubles,
    which can land on the neighbouring hundredth for a value that lies, or
    is stored, next to a half.) *)
Definition round2 (d : pyfloat) : pyfloat :=
  match d with
  | Inf => Inf
  | Fin q =>
      let s := (q * 100)%Q in
      let f := Qfloor s in
      let frac := (s - inject_Z f)%Q in
      let up := if Qle_bool frac (1 # 2)
                then (if Qle_bool (1 # 2) frac then negb (Z.even f) else false)
                else true in
      Fin (inject_Z (if up then f + 1 else f)%Z / 100)%Q
  end.

(** A row of the table [find_closest_polling_units] builds. *)
Record ClosestRow : Type := mkClosestRow {
  Polling_Unit : string;
  Ward : string;
  LGA : string;
  State : string;
  Latitude : Q;
  Longitude : Q;
  Distance : pyfloat
}.

Section Pipeline.

(** [geopy.distance.geodesic(a, b).meters]; it may reject its arguments. *)
Variable geodesic : Q * Q -> Q * Q -> Exn + Q.

(** The routing provider: its behaviour on a request, given the requests
    it has already received. *)
Variable ors : list Request -> Request -> Behaviour.

Variable sorter : SortValues.

(** The module-level names. *)
Variable polling_units : ref.
Variable ORS_API_KEY : option string.

(** [requests.post(url, json=body, headers=headers, timeout=t)].  Without
    a timeout the call waits for the provider as long as it takes. *)
Definition requests_post (u : string) (b : Body) (h : Headers) (t : option Q)
  : M Response :=
  fun w =>
    let req := mkRequest u b h t in
    let w1 := mkWorld (heap w) (wire w ++ [req]) (screen w) in
    match ors (wire w) req with
    | Answers r => (w1, Ok r)
    | Refuses => (w1, Raise ConnectionError)
    | Silent =>
        match t with
        | Some _ => (w1, Raise Timeout)
        | None => (w1, Hang)
        end
    end.

(** [r.json()]: the parsed body, Python's [None] for JSON [null]. *)
Definition response_json (r : Response) : M (option GeoJSON) :=
  match content r with
  | Some (JObject d) => ret (Some d)
  | Some JNull => ret None
  | None => raise JSONDecodeError
  end.

(** [d[key]] and [l[0]] *)
Definition getitem {A} (o : option A) : M A :=
  match o with
  | Some a => ret a
  | None => raise KeyError
  end.

(** [data[key]] on what [r.json()] gave: [None] has no subscript. *)
Definition member {A} (data : option GeoJSON) (key : GeoJSON -> option A) : M A :=
  match data with
  | Some d => getitem (key d)
  | None => raise TypeError
  end.

Definition first {A} (l : list A) : M A :=
  match l with
  | a :: _ => ret a
  | [] => raise IndexError
  end.

(** app.py, [get_road_route_and_distance] *)
Definition get_road_route_and_distance (start_lat start_lon end_lat end_lon : Q)
  : M (option GeoJSON * pyfloat * pyfloat) :=
  let headers := mkHeaders ORS_API_KEY "application/json" in
  let body := mkBody [(start_lon, start_lat); (end_lon, end_lat)] "geojson" in
  r <- requests_post ORS_DIRECTIONS_URL body headers None ;;
  if (status_code r =? 200)%Z then
    data <- response_json r ;;
    fs <- member data features ;;
    f0 <- first fs ;;
    p <- getitem (properties f0) ;;
    ss <- getitem (segments p) ;;
    s0 <- first ss ;;
    distance <- getitem (distance s0) ;;
    fs' <- member data features ;;
    f0' <- first fs' ;;
    p' <- getitem (properties f0') ;;
    ss' <- getitem (segments p') ;;
    s0' <- first ss' ;;
    duration <- getitem (duration s0') ;;
    ret (data, distance, duration)
  else
    ret (None, Inf, Inf).

(** app.py, [find_nearest_polling_units], step 1 (lines 52-58): the
    geodesic pre-filter. *)
Definition prefilter (lat lon : Q) (n : Z) : M ref :=
  df <- deref polling_units ;;
  distances <- apply_rows
    (fun row =>
       match geodesic (lat, lon) (geom_y (geometry row), geom_x (geometry row)) with
       | inl e => inl e
       | inr m => inr (Fin m)
       end) df ;;
  pu <- copy polling_units ;;
  setitem_applied set_geo_distance_m pu distances ;;;
  nsmallest (n * 3) geo_distance_m pu.

(** Step 2 (lines 60-71): one routing call per candidate, the results
    attached to the candidates' frame. *)
Definition refine (lat lon : Q) (pu : ref) : M ref :=
  rows <- iterrows pu ;;
  routes <- for_each
    (fun ir : nat * Row =>
       let (idx, row) := ir in
       res <- get_road_route_and_distance
                lat lon (geom_y (geometry row)) (geom_x (geometry row)) ;;
       let '(route_geojson, dist_m, dur_s) := res in
       ret (idx, dist_m, dur_s, route_geojson)) rows ;;
  setitem set_road_distance_m pu
    (map (fun r : nat * pyfloat * pyfloat * option GeoJSON =>
            let '(_, d, _, _) := r in d) routes) ;;;
  setitem set_duration_s pu
    (map (fun r : nat * pyfloat * pyfloat * option GeoJSON =>
            let '(_, _, t, _) := r in t) routes) ;;;
  setitem set_route_geojson pu
    (map (fun r : nat * pyfloat * pyfloat * option GeoJSON =>
            let '(_, _, _, g) := r in g) routes) ;;;
  ret pu.

(** [frame.sort_values(col)]: a new frame. *)
Definition sort_values (col : Row -> option pyfloat) (r : ref) : M ref :=
  f <- deref r ;;
  match column col f with
  | None => raise KeyError
  | Some _ => new (order_by sorter (value col) f)
  end.

(** Lines 73-76: sort by road distance, keep the first [n]. *)
Definition rank (pu : ref) (n : Z) : M ref :=
  s <- sort_values road_distance_m pu ;;
  head n s.

(** app.py, [find_nearest_polling_units] *)
Definition find_nearest_polling_units (lat lon : Q) (n : Z) : M ref :=
  pu <- prefilter lat lon n ;;
  pu <- refine lat lon pu ;;
  rank pu n.

(** The caller reads the rows of the frame it is handed. *)
Definition nearest_pus (lat lon : Q) (n : Z) : M Frame :=
  r <- find_nearest_polling_units lat lon n ;; deref r.

(** app2.py, [find_closest_polling_units] *)
Definition find_closest_polling_units (lat lon : Q) (polling_units : ref) (n : Z)
  : M (list ClosestRow) :=
  let user_coords := (lat, lon) in
  polling_units <- copy polling_units ;;
  rows <- iterrows polling_units ;;
  distances <- for_each
    (fun ir : nat * Row =>
       let (_, pu) := ir in
       let pu_coords := (geom_y (geometry pu), geom_x (geometry pu)) in
       dist_m <- lift (geodesic user_coords pu_coords) ;;
       ret (Fin dist_m)) rows ;;
  setitem set_Distance_m polling_units distances ;;;
  nearest_pus <- nsmallest n Distance_m polling_units ;;
  f <- deref nearest_pus ;;
  ret (map (fun r => mkClosestRow (name r) (ward r) (lga r) (state r)
                       (geom_y (geometry r)) (geom_x (geometry r))
                       (round2 (value Distance_m r))) f).

(** app2.py, [get_route_geojson] *)
Definition get_route_geojson (start_lon start_lat end_lon end_lat : Q)
  : M (option GeoJSON) :=
  let headers := mkHeaders ORS_API_KEY "application/json" in
  let body := mkBody [(start_lon, start_lat); (end_lon, end_lat)] "geojson" in
  try_except
    (resp <- requests_post app2.ORS_DIRECTIONS_URL body headers (Some 10%Q) ;;
     if (status_code resp =? 200)%Z then
       response_json resp
     else
       st_error (RoutingApiError (status_code resp) (text resp)) ;;;
       ret None)
    (fun e => st_error (RoutingRequestFailed e) ;;; ret None).

(** ** The stages read as functions

    What each stage computes, written without the heap: these are the
    right-hand sides of the equations proved below. *)

Fixpoint traverse {A B} (fn : A -> Exn + B) (l : list A) : Exn + list B :=
  match l with
  | [] => inr []
  | a :: l' =>
      match fn a with
      | inl e => inl e
      | inr b =>
          match traverse fn l' with
          | inl e => inl e
          | inr bs => inr (b :: bs)
          end
      end
  end.

Definition no_rows (f : Frame) : bool :=
  match f with
  | [] => true
  | _ :: _ => false
  end.

Definition attach {A} (upd : Row -> A -> Row) (f : Frame) (vs : list A) : Frame :=
  map (fun p => upd (fst p) (snd p)) (combine f vs).

Definition geo (lat lon : Q) (row : Row) : Exn + pyfloat :=
  match geodesic (lat, lon) (geom_y (geometry row), geom_x (geometry row)) with
  | inl e => inl e
  | inr m => inr (Fin m)
  end.

Definition select (k : Z) (col : Row -> option pyfloat) (f : Frame) : Frame :=
  if (k <=? 0)%Z then [] else firstn (Z.to_nat k) (stable_sort (value col) f).

Definition head_rows (n : Z) (f : Frame) : Frame :=
  if (0 <=? n)%Z then firstn (Z.to_nat n) f
  else firstn (length f - Z.to_nat (- n)) f.

Definition Route : Type := (nat * pyfloat * pyfloat * option GeoJSON)%type.

Definition request_for (lat lon : Q) (row : Row) : Request :=
  mkRequest ORS_DIRECTIONS_URL
    (mkBody [(lon, lat); (geom_x (geometry row), geom_y (geometry row))] "geojson")
    (mkHeaders ORS_API_KEY "application/json") None.

Definition first_segment (data : GeoJSON) : Outcome Segment :=
  match features data with
  | None => Raise KeyError
  | Some [] => Raise IndexError
  | Some (f0 :: _) =>
      match properties f0 with
      | None => Raise KeyError
      | Some p =>
          match segments p with
          | None => Raise KeyError
          | Some [] => Raise IndexError
          | Some (s0 :: _) => Ok s0
          end
      end
  end.

(** The triple [get_road_route_and_distance] makes of a response. *)
Definition read_route (r : Response) : Outcome (option GeoJSON * pyfloat * pyfloat) :=
  if (status_code r =? 200)%Z then
    match content r with
    | None => Raise JSONDecodeError
    | Some JNull => Raise TypeError
    | Some (JObject data) =>
        match first_segment data with
        | Ok s0 =>
            match distance s0, duration s0 with
            | Some d, Some t => Ok (Some data, d, t)
            | _, _ => Raise KeyError
            end
        | Raise e => Raise e
        | Hang => Hang
        end
    end
  else Ok (None, Inf, Inf).

Definition route_call (hist : list Request) (req : Request)
  : Outcome (option GeoJSON * pyfloat * pyfloat) :=
  match ors hist req with
  | Answers r => read_route r
  | Refuses => Raise ConnectionError
  | Silent => Hang
  end.

(** The loop of step 2 over the candidates, from the requests already sent:
    the requests sent at its end, and the routes or the way it stopped. *)
Fixpoint route_all (lat lon : Q) (hist : list Request) (rows : list Row)
  : list Request * Outcome (list Route) :=
  match rows with
  | [] => (hist, Ok [])
  | row :: rows' =>
      let req := request_for lat lon row in
      match route_call hist req with
      | Ok (g, d, t) =>
          match route_all lat lon (hist ++ [req]) rows' with
          | (h, Ok rs) => (h, Ok ((index row, d, t, g) :: rs))
          | (h, Raise e) => (h, Raise e)
          | (h, Hang) => (h, Hang)
          end
      | Raise e => (hist ++ [req], Raise e)
      | Hang => (hist ++ [req], Hang)
      end
  end.

Definition attach_route (row : Row) (r : Route) : Row :=
  let '(_, d, t, g) := r in
  set_route_geojson (set_duration_s (set_road_distance_m row d) t) g.

(** [g] is the frame [df] with each unit's geodesic distance attached. *)
Definition measured (lat lon : Q) (df g : Frame) : Prop :=
  Forall2 (fun row c =>
             exists m,
               geodesic (lat, lon) (geom_y (geometry row), geom_x (geometry row)) = inr m /\
               c = set_geo_distance_m row (Fin m)) df g.

(** A column in ascending order. *)
Definition ascending (ds : list pyfloat) : Prop :=
  StronglySorted (fun a b => fle a b = true) ds.

(** The provider answers, and what it answers can be read. *)
Definition usable (b : Behaviour) : bool :=
  match b with
  | Answers r => match read_route r with Ok _ => true | _ => false end
  | _ => false
  end.

(** [o] is the candidate [c] with its road distance, duration and route. *)
Definition routed (c o : Row) : Prop :=
  exists d t g, o = set_route_geojson (set_duration_s (set_road_distance_m c d) t) g.

(** The rows of [f] whose geodesic distance is [d]. *)
Definition at_distance (d : pyfloat) (r : Row) : bool :=
  fle (value geo_distance_m r) d && fle d (value geo_distance_m r).

(** ** The order on floats *)


Lemma fle_trans (a b c : pyfloat) :
  fle a b = true -> fle b c = true -> fle a c = true.
Proof.
  destruct a as [p|], b as [q|], c as [r|]; simpl; try congruence.
  rewrite !Qle_bool_iff. apply Qle_trans.
Qed.

Lemma fle_false (a b : pyfloat) : fle a b = false -> fle b a = true.
Proof.
  destruct a as [p|], b as [q|]; simpl; try congruence.
  intros H. apply Qle_bool_iff.
  destruct (Qlt_le_dec q p) as [Hlt|Hle].
  - apply Qlt_le_weak, Hlt.
  - apply Qle_bool_iff in Hle. congruence.
Qed.


(** ** Sorting by insertion *)

Section Sorting.

Variable A : Type.
Variable key : A -> pyfloat.

Definition key_le (a b : A) : Prop := fle (key a) (key b) = true.

Lemma key_le_trans (a b c : A) : key_le a b -> key_le b c -> key_le a c.
Proof. unfold key_le. apply fle_trans. Qed.

Lemma insert_by_perm (a : A) (l : list A) :
  Permutation (a :: l) (insert_by key a l).
Proof.
  induction l as [|b l IH]; simpl.
  - apply Permutation_refl.
  - destruct (fle (key a) (key b)).
    + apply Permutation_refl.
    + eapply perm_trans; [apply perm_swap|]. apply perm_skip, IH.
Qed.

Lemma stable_sort_perm (l : list A) : Permutation l (stable_sort key l).
Proof.
  induction l as [|a l IH]; simpl.
  - apply perm_nil.
  - eapply perm_trans; [apply perm_skip, IH|]. apply insert_by_perm.
Qed.

Lemma stable_sort_length (l : list A) : length (stable_sort key l) = length l.
Proof. symmetry. apply Permutation_length, stable_sort_perm. Qed.

Lemma insert_by_hd (a b : A) (l : list A) :
  key_le b a -> HdRel key_le b l -> HdRel key_le b (insert_by key a l).
Proof.
  intros Hba Hl. destruct l as [|c l]; simpl.
  - constructor. exact Hba.
  - destruct (fle (key a) (key c)); constructor.
    + exact Hba.
    + inversion Hl; assumption.
Qed.

Lemma insert_by_sorted (a : A) (l : list A) :
  Sorted key_le l -> Sorted key_le (insert_by key a l).
Proof.
  induction l as [|b l IH]; simpl; intros Hs.
  - repeat constructor.
  - destruct (fle (key a) (key b)) eqn:E.
    + constructor; [exact Hs|]. constructor. exact E.
    + inversion Hs as [|? ? Hl Hhd]; subst.
      constructor; [apply IH, Hl|].
      apply insert_by_hd; [|exact Hhd]. apply fle_false, E.
Qed.

Lemma stable_sort_sorted (l : list A) : Sorted key_le (stable_sort key l).
Proof.
  induction l as [|a l IH]; simpl.
  - constructor.
  - apply insert_by_sorted, IH.
Qed.

Lemma sorted_strongly (l : list A) : Sorted key_le l -> StronglySorted key_le l.
Proof.
  apply Sorted_StronglySorted. intros a b c. apply key_le_trans.
Qed.


Lemma In_firstn (k : nat) (l : list A) (a : A) : In a (firstn k l) -> In a l.
Proof.
  intros H. rewrite <- (firstn_skipn k l). apply in_or_app. left. exact H.
Qed.

Lemma strongly_sorted_firstn (k : nat) (l : list A) :
  StronglySorted key_le l -> StronglySorted key_le (firstn k l).
Proof.
  intros Hs. revert k. induction Hs as [|c l Hs IH Hall]; intros [|k]; simpl;
    try constructor.
  - apply IH.
  - rewrite Forall_forall in *. intros x Hx. apply Hall.
    eapply In_firstn, Hx.
Qed.

(** Rows that share a key keep their order: a test [p] that picks out rows
    of one key sees them in the order they came. *)
Lemma filter_insert_by (p : A -> bool) (a : A) (l : list A) :
  (forall x y, p x = true -> p y = true -> key_le x y) ->
  filter p (insert_by key a l) = filter p (a :: l).
Proof.
  intros Hp. induction l as [|b l IH]; simpl; [reflexivity|].
  destruct (fle (key a) (key b)) eqn:E; simpl; [reflexivity|].
  rewrite IH. simpl.
  destruct (p a) eqn:Ea, (p b) eqn:Eb; try reflexivity.
  specialize (Hp a b Ea Eb). unfold key_le in Hp. congruence.
Qed.

Lemma filter_stable_sort (p : A -> bool) (l : list A) :
  (forall x y, p x = true -> p y = true -> key_le x y) ->
  filter p (stable_sort key l) = filter p l.
Proof.
  intros Hp. induction l as [|a l IH]; simpl; [reflexivity|].
  rewrite filter_insert_by by exact Hp. simpl. rewrite IH. reflexivity.
Qed.

Lemma strongly_sorted_app (l1 l2 : list A) :
  StronglySorted key_le (l1 ++ l2) ->
  forall a b, In a l1 -> In b l2 -> key_le a b.
Proof.
  induction l1 as [|c l1 IH]; simpl; intros Hs a b Ha Hb; [contradiction|].
  inversion Hs as [|? ? Hs' Hall]; subst.
  destruct Ha as [->|Ha].
  - rewrite Forall_forall in Hall. apply Hall, in_or_app. right. exact Hb.
  - apply IH; assumption.
Qed.


End Sorting.

(** ** The heap *)

Lemma nth_error_app_last {A} (l : list A) (a : A) :
  nth_error (l ++ [a]) (length l) = Some a.
Proof.
  rewrite nth_error_app2 by lia. rewrite Nat.sub_diag. reflexivity.
Qed.

Lemma nth_error_update_eq {A} (l : list A) (i : nat) (a : A) :
  (i < length l)%nat -> nth_error (update l i a) i = Some a.
Proof.
  revert i. induction l as [|b l IH]; intros [|i]; simpl; intros H; try lia.
  - reflexivity.
  - apply IH. lia.
Qed.

Lemma update_update {A} (l : list A) (i : nat) (a b : A) :
  update (update l i a) i b = update l i b.
Proof.
  revert i. induction l as [|c l IH]; intros [|i]; simpl; try reflexivity.
  rewrite IH. reflexivity.
Qed.

Lemma update_app_last {A} (l : list A) (a b : A) :
  update (l ++ [a]) (length l) b = l ++ [b].
Proof.
  induction l as [|c l IH]; simpl; [reflexivity|]. rewrite IH. reflexivity.
Qed.

Lemma firstn_app_exact {A} (l extra : list A) :
  firstn (length l) (l ++ extra) = l.
Proof.
  rewrite firstn_app, Nat.sub_diag, firstn_all. simpl. apply app_nil_r.
Qed.

Lemma nth_error_app_at {A} (l extra : list A) (i : nat) :
  nth_error (l ++ extra) (i + length l) = nth_error extra i.
Proof.
  rewrite nth_error_app2 by lia. f_equal. lia.
Qed.

Lemma update_app_second {A} (l : list A) (a b c : A) :
  update (l ++ [a; b]) (S (length l)) c = l ++ [a; c].
Proof.
  induction l as [|d l IH]; simpl; [reflexivity|]. rewrite IH. reflexivity.
Qed.

(** ** Loops and columns *)

Lemma traverse_length {A B} (fn : A -> Exn + B) (l : list A) (bs : list B) :
  traverse fn l = inr bs -> length bs = length l.
Proof.
  revert bs. induction l as [|a l IH]; simpl; intros bs H.
  - inversion H. reflexivity.
  - destruct (fn a); [discriminate|].
    destruct (traverse fn l); [discriminate|].
    inversion H; subst. simpl. f_equal. apply IH. reflexivity.
Qed.

Lemma for_each_lift {A B} (fn : A -> Exn + B) (l : list A) (w : World) :
  for_each (fun a => lift (fn a)) l w =
  (w, match traverse fn l with inl e => Raise e | inr bs => Ok bs end).
Proof.
  induction l as [|a l IH]; simpl; [reflexivity|].
  unfold bind at 1. destruct (fn a) as [e|b]; simpl; [reflexivity|].
  unfold bind at 1. rewrite IH.
  destruct (traverse fn l); reflexivity.
Qed.

Lemma zip_with_attach {A} (upd : Row -> A -> Row) (f : Frame) (vs : list A) :
  length vs = length f -> zip_with upd f vs = Some (attach upd f vs).
Proof.
  revert vs. induction f as [|r f IH]; intros [|v vs] H; simpl in *; try discriminate.
  - reflexivity.
  - rewrite IH by lia. reflexivity.
Qed.

Lemma attach_length {A} (upd : Row -> A -> Row) (f : Frame) (vs : list A) :
  length vs = length f -> length (attach upd f vs) = length f.
Proof.
  intros H. unfold attach. rewrite length_map, length_combine. lia.
Qed.

Lemma column_attach_geo (f : Frame) (ds : list pyfloat) :
  length ds = length f ->
  column geo_distance_m (attach set_geo_distance_m f ds) = Some ds.
Proof.
  revert ds. induction f as [|r f IH]; intros [|d ds] H; simpl in *; try discriminate.
  - reflexivity.
  - unfold attach in IH. rewrite IH by lia. reflexivity.
Qed.

Lemma column_attach_Distance (f : Frame) (ds : list pyfloat) :
  length ds = length f ->
  column Distance_m (attach set_Distance_m f ds) = Some ds.
Proof.
  revert ds. induction f as [|r f IH]; intros [|d ds] H; simpl in *; try discriminate.
  - reflexivity.
  - unfold attach in IH. rewrite IH by lia. reflexivity.
Qed.



(** ** The stages, as equations *)

Lemma prefilter_eq (lat lon : Q) (n : Z) (w : World) :
  prefilter lat lon n w =
  match nth_error (heap w) polling_units with
  | None => (w, Raise NameError)
  | Some df =>
      if no_rows df then
        (mkWorld (heap w ++ [df]) (wire w) (screen w), Raise ValueError)
      else
        match traverse (geo lat lon) df with
        | inl e => (w, Raise e)
        | inr ds =>
            let g := attach set_geo_distance_m df ds in
            (mkWorld (heap w ++ [g; select (n * 3) geo_distance_m g]) (wire w) (screen w),
             Ok (S (length (heap w))))
        end
  end.
Proof.
  destruct w as [h wi sc]. unfold prefilter. unfold bind at 1. unfold deref at 1. simpl.
  destruct (nth_error h polling_units) as [df|] eqn:Hdf; [|reflexivity].
  unfold bind at 1. unfold apply_rows.
  destruct (no_rows df) eqn:Hnr.
  { destruct df; [|discriminate]. unfold ret at 1.
    unfold bind at 1. unfold copy, bind at 1, deref at 1. simpl. rewrite Hdf.
    unfold new at 1. simpl. reflexivity. }
  assert (Hrows :
    match df with
    | [] => ret (AsDataFrame df)
    | _ :: _ =>
        vs <- for_each (fun row => lift (geo lat lon row)) df ;; ret (AsSeries vs)
    end = (vs <- for_each (fun row => lift (geo lat lon row)) df ;; ret (AsSeries vs)))
    by (destruct df; [discriminate|reflexivity]).
  change (fun row : Row => lift _) with (fun row : Row => lift (geo lat lon row)).
  rewrite Hrows. unfold bind at 1. rewrite for_each_lift.
  destruct (traverse (geo lat lon) df) as [e|ds] eqn:Hds; [reflexivity|].
  unfold ret at 1.
  pose proof (traverse_length _ _ _ Hds) as Hlen.
  unfold bind at 1. unfold copy, bind at 1, deref at 1. simpl. rewrite Hdf.
  unfold new at 1. simpl.
  unfold bind at 1. unfold setitem_applied, setitem, bind at 1, deref at 1. simpl.
  rewrite nth_error_app_last, (zip_with_attach _ _ _ Hlen).
  unfold store. simpl. rewrite update_app_last.
  unfold nsmallest, bind, deref. simpl.
  rewrite nth_error_app_last, (column_attach_geo _ _ Hlen).
  unfold new, select. simpl. rewrite <- app_assoc. simpl.
  rewrite length_app. simpl. rewrite Nat.add_1_r. reflexivity.
Qed.

Lemma get_road_route_eq (lat lon elat elon : Q) (w : World) :
  get_road_route_and_distance lat lon elat elon w =
  let req := mkRequest ORS_DIRECTIONS_URL
               (mkBody [(lon, lat); (elon, elat)] "geojson")
               (mkHeaders ORS_API_KEY "application/json") None in
  (mkWorld (heap w) (wire w ++ [req]) (screen w), route_call (wire w) req).
Proof.
  destruct w as [h wi sc]. unfold get_road_route_and_distance, route_call.
  unfold bind at 1. unfold requests_post. simpl.
  destruct (ors wi _) as [r| |]; try reflexivity.
  unfold read_route, first_segment.
  destruct (status_code r =? 200)%Z; [|reflexivity].
  unfold response_json.
  destruct (content r) as [[|data]|]; [reflexivity| |reflexivity].
  cbv [bind ret raise getitem first member].
  destruct (features data) as [[|f0 fs]|]; try reflexivity.
  destruct (properties f0) as [p|]; try reflexivity.
  destruct (segments p) as [[|s0 ss]|]; try reflexivity.
  destruct (distance s0) as [d|]; try reflexivity.
  destruct (duration s0) as [t|]; reflexivity.
Qed.

Lemma route_loop_eq (lat lon : Q) (rows : list Row) (w : World) :
  for_each
    (fun ir : nat * Row =>
       let (idx, row) := ir in
       res <- get_road_route_and_distance
                lat lon (geom_y (geometry row)) (geom_x (geometry row)) ;;
       let '(route_geojson, dist_m, dur_s) := res in
       ret (idx, dist_m, dur_s, route_geojson))
    (map (fun row => (index row, row)) rows) w =
  (mkWorld (heap w) (fst (route_all lat lon (wire w) rows)) (screen w),
   snd (route_all lat lon (wire w) rows)).
Proof.
  revert w. induction rows as [|row rows IH]; intros [h wi sc]; simpl.
  - reflexivity.
  - unfold bind at 1. unfold bind at 1. rewrite get_road_route_eq. simpl.
    unfold request_for.
    destruct (route_call wi _) as [[[g d] t]| |]; try reflexivity.
    unfold ret at 1. unfold bind at 1. rewrite IH. simpl.
    destruct (route_all lat lon _ rows) as [h' [rs| |]]; reflexivity.
Qed.

Lemma route_all_length (lat lon : Q) (rows : list Row) :
  forall hist h rs,
    route_all lat lon hist rows = (h, Ok rs) -> length rs = length rows.
Proof.
  induction rows as [|row rows IH]; simpl; intros hist h rs H.
  - inversion H. reflexivity.
  - destruct (route_call hist _) as [[[g d] t]| |]; try discriminate.
    destruct (route_all lat lon _ rows) as [h' [rs'| |]] eqn:E; try discriminate.
    inversion H; subst. simpl. f_equal. eapply IH, E.
Qed.

Lemma attach_chain (rows : list Row) (routes : list Route) :
  attach set_route_geojson
    (attach set_duration_s
       (attach set_road_distance_m rows
          (map (fun r : Route => let '(_, d, _, _) := r in d) routes))
       (map (fun r : Route => let '(_, _, t, _) := r in t) routes))
    (map (fun r : Route => let '(_, _, _, g) := r in g) routes) =
  attach attach_route rows routes.
Proof.
  revert routes. unfold attach.
  induction rows as [|row rows IH]; intros [|[[[i d] t] g] routes]; simpl;
    try reflexivity.
  rewrite IH. reflexivity.
Qed.

Lemma refine_eq (lat lon : Q) (pu : ref) (w : World) :
  refine lat lon pu w =
  match nth_error (heap w) pu with
  | None => (w, Raise NameError)
  | Some rows =>
      match route_all lat lon (wire w) rows with
      | (h, Ok routes) =>
          (mkWorld (update (heap w) pu (attach attach_route rows routes)) h (screen w),
           Ok pu)
      | (h, Raise e) => (mkWorld (heap w) h (screen w), Raise e)
      | (h, Hang) => (mkWorld (heap w) h (screen w), Hang)
      end
  end.
Proof.
  destruct w as [h wi sc]. unfold refine. unfold bind at 1.
  unfold iterrows, bind at 1, deref at 1. simpl.
  destruct (nth_error h pu) as [rows|] eqn:Hpu; [|reflexivity].
  unfold ret at 1. unfold bind at 1. rewrite route_loop_eq. simpl.
  destruct (route_all lat lon wi rows) as [h' [routes| |]] eqn:Hr; try reflexivity.
  simpl. pose proof (route_all_length _ _ _ _ _ _ Hr) as Hlen.
  assert (Hlt : (pu < length h)%nat) by (apply nth_error_Some; congruence).
  unfold bind at 1. unfold setitem at 1, bind at 1, deref at 1. simpl. rewrite Hpu.
  rewrite zip_with_attach by (rewrite length_map; exact Hlen).
  unfold store at 1. simpl.
  unfold bind at 1. unfold setitem at 1, bind at 1, deref at 1. simpl.
  rewrite nth_error_update_eq by exact Hlt.
  rewrite zip_with_attach
    by (rewrite length_map, attach_length; rewrite ?length_map; exact Hlen).
  unfold store at 1. simpl. rewrite update_update.
  unfold bind at 1. unfold setitem at 1, bind at 1, deref at 1. simpl.
  rewrite nth_error_update_eq by exact Hlt.
  rewrite zip_with_attach
    by (rewrite length_map, !attach_length; rewrite ?length_map, ?attach_length;
        rewrite ?length_map; exact Hlen).
  unfold store, ret. simpl. rewrite update_update, attach_chain. reflexivity.
Qed.

Lemma rank_eq (pu : ref) (n : Z) (w : World) :
  rank pu n w =
  match nth_error (heap w) pu with
  | None => (w, Raise NameError)
  | Some rows =>
      match column road_distance_m rows with
      | None => (w, Raise KeyError)
      | Some _ =>
          let s := order_by sorter (value road_distance_m) rows in
          (mkWorld (heap w ++ [s; head_rows n s]) (wire w) (screen w),
           Ok (S (length (heap w))))
      end
  end.
Proof.
  destruct w as [h wi sc]. unfold rank, sort_values, head, bind, deref. simpl.
  destruct (nth_error h pu) as [rows|]; [|reflexivity].
  destruct (column road_distance_m rows); [|reflexivity].
  unfold new. simpl. rewrite nth_error_app_last. simpl.
  rewrite <- app_assoc, length_app. simpl. rewrite Nat.add_1_r. reflexivity.
Qed.

Lemma column_attach_route (rows : list Row) (routes : list Route) :
  length routes = length rows ->
  column road_distance_m (attach attach_route rows routes) =
  Some (map (fun r : Route => let '(_, d, _, _) := r in d) routes).
Proof.
  revert routes. unfold attach.
  induction rows as [|row rows IH]; intros [|[[[i d] t] g] routes] H; simpl in *;
    try discriminate; [reflexivity|].
  rewrite IH by lia. reflexivity.
Qed.

Lemma find_nearest_eq (lat lon : Q) (n : Z) (w : World) :
  find_nearest_polling_units lat lon n w =
  match nth_error (heap w) polling_units with
  | None => (w, Raise NameError)
  | Some df =>
      if no_rows df then
        (mkWorld (heap w ++ [df]) (wire w) (screen w), Raise ValueError)
      else
        match traverse (geo lat lon) df with
        | inl e => (w, Raise e)
        | inr ds =>
            let g := attach set_geo_distance_m df ds in
            let c := select (n * 3) geo_distance_m g in
            match route_all lat lon (wire w) c with
            | (h, Ok routes) =>
                let r := attach attach_route c routes in
                let s := order_by sorter (value road_distance_m) r in
                (mkWorld (heap w ++ [g; r; s; head_rows n s]) h (screen w),
                 Ok (3 + length (heap w))%nat)
            | (h, Raise e) => (mkWorld (heap w ++ [g; c]) h (screen w), Raise e)
            | (h, Hang) => (mkWorld (heap w ++ [g; c]) h (screen w), Hang)
            end
        end
  end.
Proof.
  unfold find_nearest_polling_units. unfold bind at 1. rewrite prefilter_eq.
  destruct w as [h wi sc]. cbn [heap wire screen].
  destruct (nth_error h polling_units) as [df|]; [|reflexivity].
  destruct (no_rows df); [reflexivity|].
  destruct (traverse (geo lat lon) df) as [e|ds]; [reflexivity|].
  cbv zeta. unfold bind at 1. rewrite refine_eq. cbn [heap wire screen].
  rewrite (nth_error_app_at h _ 1). cbn [nth_error].
  destruct (route_all lat lon wi _) as [h' [routes| |]] eqn:Hr; try reflexivity.
  rewrite rank_eq. cbn [heap wire screen].
  rewrite update_app_second, (nth_error_app_at h _ 1). cbn [nth_error].
  rewrite column_attach_route by (eapply route_all_length, Hr).
  cbv zeta. rewrite <- !app_assoc. cbn [app]. rewrite !length_app. cbn [length].
  do 2 f_equal. lia.
Qed.

Lemma nearest_pus_eq (lat lon : Q) (n : Z) (w : World) :
  nearest_pus lat lon n w =
  match nth_error (heap w) polling_units with
  | None => (w, Raise NameError)
  | Some df =>
      if no_rows df then
        (mkWorld (heap w ++ [df]) (wire w) (screen w), Raise ValueError)
      else
        match traverse (geo lat lon) df with
        | inl e => (w, Raise e)
        | inr ds =>
            let g := attach set_geo_distance_m df ds in
            let c := select (n * 3) geo_distance_m g in
            match route_all lat lon (wire w) c with
            | (h, Ok routes) =>
                let r := attach attach_route c routes in
                let s := order_by sorter (value road_distance_m) r in
                (mkWorld (heap w ++ [g; r; s; head_rows n s]) h (screen w),
                 Ok (head_rows n s))
            | (h, Raise e) => (mkWorld (heap w ++ [g; c]) h (screen w), Raise e)
            | (h, Hang) => (mkWorld (heap w ++ [g; c]) h (screen w), Hang)
            end
        end
  end.
Proof.
  unfold nearest_pus. unfold bind. rewrite find_nearest_eq.
  destruct w as [h wi sc]. cbn [heap wire screen].
  destruct (nth_error h polling_units) as [df|]; [|reflexivity].
  destruct (no_rows df); [reflexivity|].
  destruct (traverse (geo lat lon) df) as [e|ds]; [reflexivity|].
  cbv zeta.
  destruct (route_all lat lon wi _) as [h' [routes| |]]; try reflexivity.
  unfold deref. cbn [heap wire screen].
  rewrite (nth_error_app_at h _ 3). reflexivity.
Qed.

Lemma find_closest_eq (lat lon : Q) (units : ref) (n : Z) (w : World) :
  find_closest_polling_units lat lon units n w =
  match nth_error (heap w) units with
  | None => (w, Raise NameError)
  | Some df =>
      match traverse
              (fun pu => match geodesic (lat, lon)
                                 (geom_y (geometry pu), geom_x (geometry pu)) with
                         | inl e => inl e
                         | inr m => inr (Fin m)
                         end) df with
      | inl e => (mkWorld (heap w ++ [df]) (wire w) (screen w), Raise e)
      | inr ds =>
          let g := attach set_Distance_m df ds in
          let c := select n Distance_m g in
          (mkWorld (heap w ++ [g; c]) (wire w) (screen w),
           Ok (map (fun r => mkClosestRow (name r) (ward r) (lga r) (state r)
                               (geom_y (geometry r)) (geom_x (geometry r))
                               (round2 (value Distance_m r))) c))
      end
  end.
Proof.
  destruct w as [h wi sc]. unfold find_closest_polling_units.
  unfold bind at 1. unfold copy, bind at 1, deref at 1. simpl.
  destruct (nth_error h units) as [df|] eqn:Hdf; [|reflexivity].
  unfold new at 1. simpl.
  unfold bind at 1. unfold iterrows, bind at 1, deref at 1. simpl.
  rewrite nth_error_app_last. unfold ret at 1.
  unfold bind at 1.
  set (fn := fun pu : Row =>
               match geodesic (lat, lon) (geom_y (geometry pu), geom_x (geometry pu)) with
               | inl e => inl e
               | inr m => inr (Fin m)
               end).
  assert (Hloop : forall (l : list Row) (w : World),
             for_each
               (fun ir : nat * Row =>
                  let (_, pu) := ir in
                  dist_m <- lift (geodesic (lat, lon)
                                    (geom_y (geometry pu), geom_x (geometry pu))) ;;
                  ret (Fin dist_m))
               (map (fun row => (index row, row)) l) w =
             (w, match traverse fn l with inl e => Raise e | inr bs => Ok bs end)).
  { induction l as [|a l IH]; intros w; simpl; [reflexivity|].
    unfold bind at 1. unfold bind at 1. unfold fn at 1.
    destruct (geodesic (lat, lon) _) as [e|m]; simpl; [reflexivity|].
    unfold bind at 1. rewrite IH. destruct (traverse fn l); reflexivity. }
  rewrite Hloop.
  destruct (traverse fn df) as [e|ds] eqn:Hds; [reflexivity|].
  pose proof (traverse_length _ _ _ Hds) as Hlen.
  unfold bind at 1. unfold setitem, bind at 1, deref at 1. simpl.
  rewrite nth_error_app_last, (zip_with_attach _ _ _ Hlen).
  unfold store. simpl. rewrite update_app_last.
  unfold bind at 1. unfold nsmallest, bind at 1, deref at 1. simpl.
  rewrite nth_error_app_last, (column_attach_Distance _ _ Hlen).
  unfold new at 1. simpl.
  unfold bind, deref, ret. simpl.
  rewrite nth_error_app_last. rewrite <- app_assoc. reflexivity.
Qed.

(** ** Facts about the stages *)

Lemma traverse_ok {A B} (fn : A -> Exn + B) (l : list A) :
  (forall a, In a l -> exists b, fn a = inr b) ->
  exists bs, traverse fn l = inr bs.
Proof.
  induction l as [|a l IH]; simpl; intros H.
  - eexists. reflexivity.
  - destruct (H a (or_introl eq_refl)) as [b ->].
    destruct IH as [bs ->]; [intros; apply H; right; assumption|].
    eexists. reflexivity.
Qed.

Lemma traverse_first_err {A B} (fn : A -> Exn + B) (pre : list A) (a : A)
    (post : list A) (e : Exn) :
  (forall x, In x pre -> exists b, fn x = inr b) ->
  fn a = inl e ->
  traverse fn (pre ++ a :: post) = inl e.
Proof.
  induction pre as [|x pre IH]; simpl; intros Hpre Ha.
  - rewrite Ha. reflexivity.
  - destruct (Hpre x (or_introl eq_refl)) as [b ->].
    rewrite IH; [reflexivity| |exact Ha].
    intros y Hy. apply Hpre. right. exact Hy.
Qed.

Lemma no_rows_false (f : Frame) : f <> [] -> no_rows f = false.
Proof.
  destruct f; [congruence|reflexivity].
Qed.

Lemma geo_ok (lat lon : Q) (df : Frame) :
  (forall row, In row df ->
     exists m, geodesic (lat, lon) (geom_y (geometry row), geom_x (geometry row)) = inr m) ->
  exists ds, traverse (geo lat lon) df = inr ds.
Proof.
  intros H. apply traverse_ok. intros row Hrow. unfold geo.
  destruct (H row Hrow) as [m ->]. eexists. reflexivity.
Qed.

Lemma attach_measured (lat lon : Q) (df : Frame) (ds : list pyfloat) :
  traverse (geo lat lon) df = inr ds ->
  measured lat lon df (attach set_geo_distance_m df ds).
Proof.
  unfold measured, attach. revert ds.
  induction df as [|row df IH]; simpl; intros ds H.
  - inversion H. constructor.
  - unfold geo at 1 in H.
    destruct (geodesic _ _) as [e|m] eqn:Em; [discriminate|].
    destruct (traverse (geo lat lon) df) as [e|ds'] eqn:E; [discriminate|].
    inversion H; subst. simpl. constructor; [|apply IH; reflexivity].
    exists m. split; [exact Em|reflexivity].
Qed.

Lemma select_firstn (k : Z) (col : Row -> option pyfloat) (f : Frame) :
  select k col f = firstn (Z.to_nat k) (stable_sort (value col) f).
Proof.
  unfold select. destruct (k <=? 0)%Z eqn:E; [|reflexivity].
  apply Z.leb_le in E. replace (Z.to_nat k) with 0%nat by lia. reflexivity.
Qed.

Lemma select_length (k : Z) (col : Row -> option pyfloat) (f : Frame) :
  length (select k col f) = Nat.min (Z.to_nat k) (length f).
Proof.
  rewrite select_firstn, length_firstn, stable_sort_length. reflexivity.
Qed.

Lemma head_rows_firstn (n : Z) (f : Frame) :
  exists m, head_rows n f = firstn m f.
Proof.
  unfold head_rows. destruct (0 <=? n)%Z; eexists; reflexivity.
Qed.

Lemma head_rows_length (n : Z) (f : Frame) :
  (0 <= n)%Z -> length (head_rows n f) = Nat.min (Z.to_nat n) (length f).
Proof.
  intros H. unfold head_rows. apply Z.leb_le in H. rewrite H.
  apply length_firstn.
Qed.





Lemma route_all_wire (lat lon : Q) (rows : list Row) :
  forall hist h rs,
    route_all lat lon hist rows = (h, Ok rs) ->
    h = hist ++ map (request_for lat lon) rows.
Proof.
  induction rows as [|row rows IH]; simpl; intros hist h rs H.
  - inversion H. rewrite app_nil_r. reflexivity.
  - destruct (route_call hist _) as [[[g d] t]| |]; try discriminate.
    destruct (route_all lat lon _ rows) as [h' [rs'| |]] eqn:E; try discriminate.
    inversion H; subst. rewrite (IH _ _ _ E), <- app_assoc. reflexivity.
Qed.

Lemma route_all_ok (lat lon : Q) (rows : list Row) :
  (forall hist req, usable (ors hist req) = true) ->
  forall hist, exists h rs, route_all lat lon hist rows = (h, Ok rs).
Proof.
  intros Hu. induction rows as [|row rows IH]; simpl; intros hist.
  - eexists _, _. reflexivity.
  - specialize (Hu hist (request_for lat lon row)). unfold usable in Hu.
    unfold route_call.
    destruct (ors hist _) as [r| |]; try discriminate.
    destruct (read_route r) as [[[g d] t]| |]; try discriminate.
    destruct (IH (hist ++ [request_for lat lon row])) as [h [rs ->]].
    eexists _, _. reflexivity.
Qed.

Lemma attach_routed (rows : list Row) (routes : list Route) :
  length routes = length rows ->
  Forall2 routed rows (attach attach_route rows routes).
Proof.
  unfold attach. revert routes.
  induction rows as [|row rows IH]; intros [|[[[i d] t] g] routes] H; simpl in *;
    try discriminate; constructor.
  - exists d, t, g. reflexivity.
  - apply IH. lia.
Qed.

Lemma Forall2_In_r {A B} (R : A -> B -> Prop) (l : list A) (l' : list B) (b : B) :
  Forall2 R l l' -> In b l' -> exists a, In a l /\ R a b.
Proof.
  induction 1 as [|x y l l' Hxy H IH]; simpl; intros Hb; [contradiction|].
  destruct Hb as [<-|Hb].
  - exists x. auto.
  - destruct (IH Hb) as [a [Ha HR]]. exists a. auto.
Qed.

(** ** Properties of the pipeline *)

(** C9.  Neither [find_nearest_polling_units] nor
    [find_closest_polling_units] changes a frame that existed before the
    call, however the call ends: every frame of the heap, the polling-unit
    table among them, holds afterwards the rows and columns it held before.
    The distance and route columns are written only to frames allocated
    during the call. *)
Theorem dataset_store_unchanged (lat lon : Q) (n : Z) (units : ref) (w : World) :
  firstn (length (heap w))
         (heap (fst (find_nearest_polling_units lat lon n w))) = heap w /\
  nth_error (heap (fst (find_nearest_polling_units lat lon n w))) polling_units =
    nth_error (heap w) polling_units /\
  firstn (length (heap w))
         (heap (fst (find_closest_polling_units lat lon units n w))) = heap w /\
  nth_error (heap (fst (find_closest_polling_units lat lon units n w))) units =
    nth_error (heap w) units.
Proof.
  rewrite find_nearest_eq, find_closest_eq.
  destruct w as [h wi sc]. cbn [heap wire screen].
  assert (Hkeep : forall (r : ref) (extra : list Frame) (df : Frame),
             nth_error h r = Some df -> nth_error (h ++ extra) r = Some df).
  { intros r extra df H. rewrite nth_error_app1; [exact H|].
    apply nth_error_Some. congruence. }
  repeat split.
  - destruct (nth_error h polling_units) as [df|]; [|apply firstn_all].
    destruct (no_rows df); [apply firstn_app_exact|].
    destruct (traverse (geo lat lon) df) as [e|ds]; [apply firstn_all|].
    cbv zeta. destruct (route_all lat lon wi _) as [h' [routes| |]];
      apply firstn_app_exact.
  - destruct (nth_error h polling_units) as [df|] eqn:Hdf; [|exact Hdf].
    destruct (no_rows df); [cbn [fst heap]; apply Hkeep, Hdf|].
    destruct (traverse (geo lat lon) df) as [e|ds]; [exact Hdf|].
    cbv zeta. destruct (route_all lat lon wi _) as [h' [routes| |]];
      cbn [fst heap]; apply Hkeep, Hdf.
  - destruct (nth_error h units) as [df|]; [|apply firstn_all].
    destruct (traverse _ df) as [e|ds]; apply firstn_app_exact.
  - destruct (nth_error h units) as [df|] eqn:Hdf; [|exact Hdf].
    destruct (traverse _ df) as [e|ds]; cbn [fst heap]; apply Hkeep, Hdf.
Qed.


(** C7.  A pre-filter run that returned candidates [c1] returns the same
    candidates, in the same order, when run again on the same table and
    query point; and the candidates at any one geodesic distance are, in
    table order, the first units of the table at that distance. *)
Theorem prefilter_deterministic (lat lon : Q) (k : Z) (w w1 : World) (pu1 : ref)
    (c1 : Frame) :
  prefilter lat lon k w = (w1, Ok pu1) ->
  nth_error (heap w1) pu1 = Some c1 ->
  (exists w2 pu2,
      prefilter lat lon k w1 = (w2, Ok pu2) /\ nth_error (heap w2) pu2 = Some c1) /\
  (exists df g,
      nth_error (heap w) polling_units = Some df /\
      measured lat lon df g /\
      forall d, exists rest,
        filter (at_distance d) g = filter (at_distance d) c1 ++ rest).
Proof.
  intros Hrun Hc1. rewrite prefilter_eq in Hrun.
  destruct (nth_error (heap w) polling_units) as [df|] eqn:Hdf; [|discriminate].
  destruct (no_rows df) eqn:Hrows; [discriminate|].
  destruct (traverse (geo lat lon) df) as [e|ds] eqn:Hds; [discriminate|].
  cbv zeta in Hrun. inversion Hrun; subst w1 pu1. clear Hrun.
  cbn [heap] in Hc1. rewrite (nth_error_app_at (heap w) _ 1) in Hc1.
  cbn [nth_error] in Hc1. inversion Hc1; subst c1. clear Hc1.
  split.
  - eexists _, _. rewrite prefilter_eq. cbn [heap wire screen].
    rewrite nth_error_app1 by (apply nth_error_Some; congruence).
    rewrite Hdf, Hrows, Hds. cbv zeta. split; [reflexivity|].
    cbn [heap]. rewrite (nth_error_app_at _ _ 1). reflexivity.
  - exists df, (attach set_geo_distance_m df ds).
    split; [reflexivity|]. split; [apply (attach_measured lat lon df ds Hds)|].
    intros d. rewrite select_firstn.
    exists (filter (at_distance d)
              (skipn (Z.to_nat (k * 3))
                 (stable_sort (value geo_distance_m) (attach set_geo_distance_m df ds)))).
    rewrite <- filter_app, firstn_skipn.
    symmetry. apply filter_stable_sort.
    intros x y Hx Hy. unfold at_distance in *.
    apply andb_true_iff in Hx, Hy. unfold key_le.
    eapply fle_trans; [apply Hx|apply Hy].
Qed.

(** What a completed call returned: the table, the candidates the
    pre-filter kept of it and the rows it left out, and the routes. *)
Lemma nearest_pus_returns (lat lon : Q) (n : Z) (w w' : World) (out : Frame) :
  nearest_pus lat lon n w = (w', Ok out) ->
  exists df ds routes,
    nth_error (heap w) polling_units = Some df /\
    traverse (geo lat lon) df = inr ds /\
    let c := select (n * 3) geo_distance_m (attach set_geo_distance_m df ds) in
    length routes = length c /\
    w' = mkWorld
           (heap w ++ [attach set_geo_distance_m df ds; attach attach_route c routes;
                       order_by sorter (value road_distance_m) (attach attach_route c routes);
                       out])
           (wire w ++ map (request_for lat lon) c) (screen w) /\
    out = head_rows n (order_by sorter (value road_distance_m) (attach attach_route c routes)).
Proof.
  intros H. rewrite nearest_pus_eq in H.
  destruct (nth_error (heap w) polling_units) as [df|] eqn:Hdf; [|discriminate].
  destruct (no_rows df); [discriminate|].
  destruct (traverse (geo lat lon) df) as [e|ds] eqn:Hds; [discriminate|].
  cbv zeta in H.
  destruct (route_all lat lon (wire w) _) as [h [routes| |]] eqn:Hr; try discriminate.
  pose proof (route_all_wire _ _ _ _ _ _ Hr) as Hw.
  pose proof (route_all_length _ _ _ _ _ _ Hr) as Hlen.
  inversion H; subst. exists df, ds, routes. cbv zeta.
  split; [reflexivity|]. split; [exact Hds|]. split; [exact Hlen|].
  split; reflexivity.
Qed.



(** C5.  For a count [n >= 0], ranking a frame of refined candidates, empty
    or not, returns exactly [min n |refined|] of them, never more than [n],
    and all of them when there are no more than [n]; and a query on a
    loaded table of at least one unit, with every geodesic distance defined
    and a provider whose answers can be read, returns [min n |table|] rows
    without raising. *)
Theorem rank_truncates (n : Z) (w : World) :
  (0 <= n)%Z ->
  (forall pu rows,
      nth_error (heap w) pu = Some rows ->
      column road_distance_m rows <> None ->
      exists w' r out,
        rank pu n w = (w', Ok r) /\
        nth_error (heap w') r = Some out /\
        length out = Nat.min (Z.to_nat n) (length rows) /\
        (Z.of_nat (length out) <= n)%Z /\
        ((length rows <= Z.to_nat n)%nat -> Permutation rows out)) /\
  (forall lat lon df,
      nth_error (heap w) polling_units = Some df ->
      df <> [] ->
      (forall row, In row df ->
         exists m,
           geodesic (lat, lon) (geom_y (geometry row), geom_x (geometry row)) = inr m) ->
      (forall hist req, usable (ors hist req) = true) ->
      exists w' out,
        nearest_pus lat lon n w = (w', Ok out) /\
        length out = Nat.min (Z.to_nat n) (length df)).
Proof.
  intros Hn. split.
  - intros pu rows Hpu Hcol.
    destruct (column road_distance_m rows) as [ds|] eqn:E; [|congruence].
    pose proof (Permutation_length (order_by_perm sorter (value road_distance_m) rows))
      as Hlen.
    eexists _, _, _. split; [rewrite rank_eq, Hpu, E; reflexivity|].
    cbn [heap]. split; [rewrite (nth_error_app_at (heap w) _ 1); reflexivity|].
    rewrite head_rows_length by exact Hn. rewrite <- Hlen.
    split; [reflexivity|]. split; [lia|].
    intros Hle. unfold head_rows. apply Z.leb_le in Hn. rewrite Hn.
    rewrite firstn_all2 by lia. apply order_by_perm.
  - intros lat lon df Hdf Hrows Hgeo Hors. apply no_rows_false in Hrows.
    destruct (geo_ok lat lon df Hgeo) as [ds Hds].
    pose proof (traverse_length _ _ _ Hds) as Hlen.
    destruct (route_all_ok lat lon
                (select (n * 3) geo_distance_m (attach set_geo_distance_m df ds))
                Hors (wire w)) as [h [routes Hr]].
    pose proof (route_all_length _ _ _ _ _ _ Hr) as Hrl.
    eexists _, _. split; [rewrite nearest_pus_eq, Hdf, Hrows, Hds; cbv zeta;
                          rewrite Hr; reflexivity|].
    rewrite head_rows_length by exact Hn.
    rewrite <- (Permutation_length (order_by_perm sorter _ _)).
    rewrite attach_length by exact Hrl.
    rewrite select_length, attach_length by exact Hlen. lia.
Qed.

(** A refinement that completes hands back the frame it was given,
    holding one row per input candidate, in the input order, each the input
    row with its road distance, duration and route attached, after exactly
    one request per candidate in that order; and it does complete whenever
    the provider's answers can be read. *)
Lemma refine_one_to_one (lat lon : Q) (pu : ref) (w : World) (rows : Frame) :
  nth_error (heap w) pu = Some rows ->
  (forall w' r,
      refine lat lon pu w = (w', Ok r) ->
      r = pu /\
      exists out,
        nth_error (heap w') pu = Some out /\
        Forall2 routed rows out /\
        wire w' = wire w ++ map (request_for lat lon) rows) /\
  ((forall hist req, usable (ors hist req) = true) ->
   exists w', refine lat lon pu w = (w', Ok pu)).
Proof.
  intros Hpu. split.
  - intros w' r H. rewrite refine_eq, Hpu in H.
    destruct (route_all lat lon (wire w) rows) as [h [routes| |]] eqn:Hr;
      try discriminate.
    inversion H; subst. split; [reflexivity|].
    exists (attach attach_route rows routes). cbn [heap wire].
    split; [apply nth_error_update_eq, nth_error_Some; congruence|].
    split; [apply attach_routed; eapply route_all_length, Hr|].
    eapply route_all_wire, Hr.
  - intros Hors. destruct (route_all_ok lat lon rows Hors (wire w)) as [h [routes Hr]].
    eexists. rewrite refine_eq, Hpu, Hr. reflexivity.
Qed.

(** C10.  Every row of a result is one of the pre-filtered candidates with
    its route attached, and those candidates are the [min (n*3) |table|]
    geodesically nearest units: the table with its distances splits into
    the candidates and the rest, and no unit of the rest is geodesically
    nearer than a candidate.  A unit of the rest therefore never appears,
    whatever its road distance would have been. *)
Theorem result_within_prefilter (lat lon : Q) (n : Z) (w w' : World) (out : Frame) :
  nearest_pus lat lon n w = (w', Ok out) ->
  exists df g cands rest,
    nth_error (heap w) polling_units = Some df /\
    measured lat lon df g /\
    Permutation g (cands ++ rest) /\
    length cands = Nat.min (Z.to_nat (n * 3)) (length df) /\
    (forall c r, In c cands -> In r rest ->
       fle (value geo_distance_m c) (value geo_distance_m r) = true) /\
    (forall o, In o out -> exists c, In c cands /\ routed c o) /\
    wire w' = wire w ++ map (request_for lat lon) cands.
Proof.
  intros H. apply nearest_pus_returns in H.
  destruct H as [df [ds [routes [Hdf [Hds [Hlen [Hw' Hout]]]]]]]. cbv zeta in *.
  pose proof (traverse_length _ _ _ Hds) as Hdl.
  set (g := attach set_geo_distance_m df ds) in *.
  set (sorted := stable_sort (value geo_distance_m) g).
  exists df, g, (select (n * 3) geo_distance_m g), (skipn (Z.to_nat (n * 3)) sorted).
  split; [exact Hdf|].
  split; [apply attach_measured, Hds|].
  split; [rewrite select_firstn; fold sorted; rewrite firstn_skipn;
          apply stable_sort_perm|].
  split; [rewrite select_length; unfold g; rewrite attach_length by exact Hdl;
          reflexivity|].
  split.
  - rewrite select_firstn. fold sorted. intros c r Hc Hr.
    apply (strongly_sorted_app Row (value geo_distance_m)
             (firstn (Z.to_nat (n * 3)) sorted) (skipn (Z.to_nat (n * 3)) sorted));
      [|exact Hc|exact Hr].
    rewrite firstn_skipn. apply sorted_strongly, stable_sort_sorted.
  - split; [|subst w'; reflexivity].
    intros o Ho. subst out.
    destruct (head_rows_firstn n
                (order_by sorter (value road_distance_m)
                   (attach attach_route (select (n * 3) geo_distance_m g) routes)))
      as [m Hm].
    rewrite Hm in Ho. apply In_firstn in Ho.
    apply (Permutation_in _ (Permutation_sym (order_by_perm sorter _ _))) in Ho.
    apply (Forall2_In_r _ _ _ _ (attach_routed _ _ Hlen) Ho).
Qed.

(** C2, as the code has it.  The pipeline checks neither the latitude nor
    the count.  If the geodesic routine rejects the coordinates of a unit,
    the units before it being accepted, the call raises the very exception
    that routine raised there, with the world, and so the list of requests
    sent, as it was.  If the table has a unit, every geodesic distance is
    defined and the count is zero or negative, the call returns an empty
    result, again without a single request. *)
Theorem unchecked_query_sends_nothing (lat lon : Q) (n : Z) (w : World) (df : Frame) :
  nth_error (heap w) polling_units = Some df ->
  (forall pre row post e,
      df = pre ++ row :: post ->
      (forall x, In x pre ->
         exists m,
           geodesic (lat, lon) (geom_y (geometry x), geom_x (geometry x)) = inr m) ->
      geodesic (lat, lon) (geom_y (geometry row), geom_x (geometry row)) = inl e ->
      nearest_pus lat lon n w = (w, Raise e)) /\
  (df <> [] ->
   (forall row, In row df ->
      exists m,
        geodesic (lat, lon) (geom_y (geometry row), geom_x (geometry row)) = inr m) ->
   (n <= 0)%Z ->
   exists w', nearest_pus lat lon n w = (w', Ok []) /\ wire w' = wire w).
Proof.
  intros Hdf. split.
  - intros pre row post e Hsplit Hpre He.
    assert (Hrows : no_rows df = false) by (subst df; destruct pre; reflexivity).
    assert (Ht : traverse (geo lat lon) df = inl e).
    { subst df. apply traverse_first_err.
      - intros x Hx. destruct (Hpre x Hx) as [m Hm]. exists (Fin m).
        unfold geo. rewrite Hm. reflexivity.
      - unfold geo. rewrite He. reflexivity. }
    rewrite nearest_pus_eq, Hdf, Hrows, Ht. reflexivity.
  - intros Hrows Hgeo Hn. apply no_rows_false in Hrows.
    destruct (geo_ok lat lon df Hgeo) as [ds Hds].
    eexists. rewrite nearest_pus_eq, Hdf, Hrows, Hds. cbv zeta.
    assert (Hsel : select (n * 3) geo_distance_m (attach set_geo_distance_m df ds) = [])
      by (unfold select; replace (n * 3 <=? 0)%Z with true
            by (symmetry; apply Z.leb_le; lia); reflexivity).
    rewrite Hsel. cbn [route_all attach combine map].
    assert (Hnil : order_by sorter (value road_distance_m) [] = [])
      by (apply Permutation_nil, order_by_perm).
    rewrite Hnil.
    assert (Hhead : head_rows n [] = [])
      by (unfold head_rows; destruct (0 <=? n)%Z; apply firstn_nil).
    rewrite Hhead. split; reflexivity.
Qed.

End Pipeline.

(** ** The order numpy's quicksort gives is one [sort_values] may give *)






(** ** Tables, a provider and two sorters *)

Definition stable_sorter : SortValues :=
  mkSortValues (@stable_sort Row) (stable_sort_perm Row) (stable_sort_sorted Row).


Definition in_range (lat : Q) : bool :=
  Qle_bool (-90) lat && Qle_bool lat 90.

(** A stand-in for geopy on a small grid: 111 km per degree along the axes,
    and, like geopy, no distance for a latitude outside [-90, 90]. *)
Definition grid_geodesic (a b : Q * Q) : Exn + Q :=
  if in_range (fst a) && in_range (fst b)
  then inr (111000 * (Qabs (fst a - fst b) + Qabs (snd a - snd b)))%Q
  else inl ValueError.

Definition unit_at (i : nat) (nm : string) (lon lat : Q) : Row :=
  mkRow i nm "Wuse" "Abuja Municipal" "FCT" (mkPoint lon lat)
        None None None None None.

Definition sample_units : Frame :=
  [unit_at 0 "PU 001" 7 9; unit_at 1 "PU 002" 8 9; unit_at 2 "PU 003" 6 9;
   unit_at 3 "PU 004" 7 12; unit_at 4 "PU 005" 8 10].

Definition sample_world : World := mkWorld [sample_units] [] [].

Definition route_found (d t : Q) : Response :=
  mkResponse 200 "FeatureCollection"
    (Some (mkGeoJSON
       (Some [mkFeature (Some (mkProperties (Some [mkSegment (Some (Fin d)) (Some (Fin t))])))
                        []]))).

(** A provider that finds a route to every destination but those at
    longitude 8, where it does [b]. *)
Definition ors_with (b : Behaviour) (hist : list Request) (req : Request) : Behaviour :=
  match coordinates (json req) with
  | [_; (lon, lat)] =>
      if Qeq_bool lon 8 then b
      else Answers (route_found (1000 * (lon + lat)) (60 * lat))
  | _ => Answers (mkResponse 400 "Bad Request" None)
  end.

Definition server_error : Behaviour :=
  Answers (mkResponse 500 "Internal Server Error" None).

Definition rows_of (o : Outcome Frame) : Frame :=
  match o with
  | Ok f => f
  | _ => []
  end.

(** The query of the examples: from (9 N, 7 E). *)
Definition sample_query (b : Behaviour) (s : SortValues) (n : Z) : World * Outcome Frame :=
  nearest_pus grid_geodesic (ors_with b) s 0%nat (Some "key"%string) 9 7 n sample_world.

(** The candidates of that query for a count of 2, the world the pre-filter
    leaves and the world the refinement leaves. *)
Definition sample_prefiltered : World :=
  fst (prefilter grid_geodesic 0%nat 9 7 2 sample_world).

Definition sample_candidates : Frame :=
  rows_of (snd ((pu <- prefilter grid_geodesic 0%nat 9 7 2 ;; deref pu) sample_world)).

Definition sample_refined : World :=
  fst (refine (ors_with server_error) (Some "key"%string) 9 7 2%nat sample_prefiltered).

Definition sample_routed : Frame :=
  rows_of (snd (deref 2%nat sample_refined)).

(** Every unit of the sample table has a distance from (9 N, 7 E). *)
Lemma sample_geodesic_defined (row : Row) :
  In row sample_units ->
  exists m, grid_geodesic (9, 7) (geom_y (geometry row), geom_x (geometry row)) = inr m.
Proof.
  intros Hin. unfold sample_units in Hin. simpl in Hin.
  repeat (destruct Hin as [<-|Hin]; [eexists; vm_compute; reflexivity|]).
  contradiction.
Defined.

(** The sample provider can be read whenever its behaviour at longitude 8
    can. *)
Lemma ors_with_usable (b : Behaviour) :
  usable b = true -> forall hist req, usable (ors_with b hist req) = true.
Proof.
  intros Hb hist [u [cs f] h t]. unfold ors_with. simpl.
  destruct cs as [|a [|[lon lat] [|c cs]]]; try reflexivity.
  destruct (Qeq_bool lon 8); [exact Hb|reflexivity].
Defined.


(** The pre-filter run again in the world its first run left. *)
Lemma prefilter_deterministic_witness :
  (exists w2 pu2,
      prefilter grid_geodesic 0%nat 9 7 2 sample_prefiltered = (w2, Ok pu2) /\
      nth_error (heap w2) pu2 = Some sample_candidates) /\
  (exists df g,
      nth_error (heap sample_world) 0%nat = Some df /\
      measured grid_geodesic 9 7 df g /\
      forall d, exists rest,
        filter (at_distance d) g = filter (at_distance d) sample_candidates ++ rest).
Proof.
  apply (prefilter_deterministic grid_geodesic 0%nat 9 7 2 sample_world
           sample_prefiltered 2%nat sample_candidates).
  - vm_compute. reflexivity.
  - vm_compute. reflexivity.
Defined.


(** Ranking the five refined sample candidates for a count of 2, and the
    sample query for 10 units on a table of 5. *)
Lemma rank_truncates_witness :
  (exists w' r out,
      rank stable_sorter 2%nat 2 sample_refined = (w', Ok r) /\
      nth_error (heap w') r = Some out /\
      length out = Nat.min (Z.to_nat 2) (length sample_routed) /\
      (Z.of_nat (length out) <= 2)%Z) /\
  (exists w' out,
      nearest_pus grid_geodesic (ors_with server_error) stable_sorter 0%nat
        (Some "key"%string) 9 7 10 sample_world = (w', Ok out) /\
      length out = Nat.min (Z.to_nat 10) (length sample_units)).
Proof.
  split.
  - destruct (rank_truncates grid_geodesic (ors_with server_error) stable_sorter 0%nat
                (Some "key"%string) 2 sample_refined) as [Hrank _]; [lia|].
    destruct (Hrank 2%nat sample_routed) as [w' [r [out [H1 [H2 [H3 [H4 _]]]]]]].
    + vm_compute. reflexivity.
    + vm_compute. discriminate.
    + exists w', r, out. auto.
  - destruct (rank_truncates grid_geodesic (ors_with server_error) stable_sorter 0%nat
                (Some "key"%string) 10 sample_world) as [_ Hquery]; [lia|].
    apply (Hquery 9 7 sample_units).
    + reflexivity.
    + discriminate.
    + exact sample_geodesic_defined.
    + apply ors_with_usable. reflexivity.
Defined.

(** Refining the sample candidates. *)
Lemma refine_one_to_one_witness :
  exists w' out,
    refine (ors_with server_error) (Some "key"%string) 9 7 2%nat sample_prefiltered
      = (w', Ok 2%nat) /\
    nth_error (heap w') 2%nat = Some out /\
    Forall2 (routed) sample_candidates out /\
    wire w' = wire sample_prefiltered ++
              map (request_for (Some "key"%string) 9 7) sample_candidates.
Proof.
  destruct (refine_one_to_one (ors_with server_error) (Some "key"%string) 9 7 2%nat
              sample_prefiltered sample_candidates) as [Hdone Hreturns].
  - vm_compute. reflexivity.
  - destruct Hreturns as [w' Hw']; [apply ors_with_usable; reflexivity|].
    destruct (Hdone w' 2%nat Hw') as [_ [out [H1 [H2 H3]]]].
    exists w', out. auto.
Defined.

(** The sample query for 1 unit: three candidates, two units left out. *)
Lemma result_within_prefilter_witness :
  exists df g cands rest,
    nth_error (heap sample_world) 0%nat = Some df /\
    measured grid_geodesic 9 7 df g /\
    Permutation g (cands ++ rest) /\
    length cands = Nat.min (Z.to_nat (1 * 3)) (length df) /\
    (forall c r, In c cands -> In r rest ->
       fle (value geo_distance_m c) (value geo_distance_m r) = true) /\
    (forall o, In o (rows_of (snd (sample_query server_error stable_sorter 1))) ->
       exists c, In c cands /\ routed c o) /\
    wire (fst (sample_query server_error stable_sorter 1)) =
      wire sample_world ++ map (request_for (Some "key"%string) 9 7) cands.
Proof.
  apply (result_within_prefilter grid_geodesic (ors_with server_error) stable_sorter
           0%nat (Some "key"%string) 9 7 1 sample_world
           (fst (sample_query server_error stable_sorter 1))).
  vm_compute. reflexivity.
Defined.

(** The sample query at latitude 200, which the grid rejects at the first
    unit with a [ValueError], and the sample query for 0 units. *)
Lemma unchecked_query_sends_nothing_witness :
  nearest_pus grid_geodesic (ors_with server_error) stable_sorter 0%nat
    (Some "key"%string) 200 7 1 sample_world = (sample_world, Raise ValueError) /\
  (exists w',
      nearest_pus grid_geodesic (ors_with server_error) stable_sorter 0%nat
        (Some "key"%string) 9 7 0 sample_world = (w', Ok []) /\
      wire w' = wire sample_world).
Proof.
  split.
  - destruct (unchecked_query_sends_nothing grid_geodesic (ors_with server_error)
                stable_sorter 0%nat (Some "key"%string) 200 7 1 sample_world
                sample_units) as [Hraise _]; [reflexivity|].
    apply (Hraise [] (unit_at 0 "PU 001" 7 9)
             [unit_at 1 "PU 002" 8 9; unit_at 2 "PU 003" 6 9;
              unit_at 3 "PU 004" 7 12; unit_at 4 "PU 005" 8 10]).
    + reflexivity.
    + intros x [].
    + vm_compute. reflexivity.
  - destruct (unchecked_query_sends_nothing grid_geodesic (ors_with server_error)
                stable_sorter 0%nat (Some "key"%string) 9 7 0 sample_world
                sample_units) as [_ Hempty]; [reflexivity|].
    apply Hempty; [discriminate|exact sample_geodesic_defined|lia].
Defined.

Definition names_and_roads (f : Frame) : list (string * option pyfloat) :=
  map (fun r => (name r, road_distance_m r)) f.

(** C1, at a failing input.  Five units, a count of 5, and a provider that
    fails on the destinations at longitude 8 ("PU 002" and "PU 005").  When
    the failure is a refused connection, or a 200 response whose body is
    not JSON, lacks [features], or holds no feature (no route found), the
    exception leaves [get_road_route_and_distance] and the whole call: no
    result is returned, and the candidates after the failing one are never
    asked for.  Only a non-200 status is turned into [Inf] and a missing
    route, the other candidates being ranked before it. *)
Theorem one_failure_aborts_batch :
  snd (sample_query Refuses stable_sorter 5) = Raise ConnectionError /\
  snd (sample_query (Answers (mkResponse 200 "<html>" None)) stable_sorter 5)
    = Raise JSONDecodeError /\
  snd (sample_query (Answers (mkResponse 200 "{}" (Some (mkGeoJSON None)))) stable_sorter 5)
    = Raise KeyError /\
  snd (sample_query (Answers (mkResponse 200 "{features: []}" (Some (mkGeoJSON (Some [])))))
         stable_sorter 5)
    = Raise IndexError /\
  length (wire (fst (sample_query Refuses stable_sorter 5))) = 2%nat /\
  names_and_roads (rows_of (snd (sample_query server_error stable_sorter 5))) =
    [("PU 003"%string, Some (Fin 15000)); ("PU 001"%string, Some (Fin 16000));
     ("PU 004"%string, Some (Fin 19000)); ("PU 002"%string, Some Inf);
     ("PU 005"%string, Some Inf)].
Proof.
  repeat split; vm_compute; reflexivity.
Qed.

(** C6, at a failing input.  The request [get_road_route_and_distance]
    sends carries no timeout, whatever its arguments; so when the provider
    stays silent on one candidate the query never returns.  The sibling
    [get_route_geojson] of app2.py sends its request with a timeout of 10
    seconds and turns the timeout into a missing route. *)
Theorem refinement_request_unbounded :
  (forall ors key lat lon elat elon w,
      exists req,
        wire (fst (get_road_route_and_distance ors key lat lon elat elon w))
          = wire w ++ [req] /\
        timeout req = None) /\
  snd (sample_query Silent stable_sorter 5) = Hang /\
  snd (get_route_geojson (ors_with Silent) (Some "key"%string) 7 9 8 9 sample_world)
    = Ok None /\
  map timeout
      (wire (fst (get_route_geojson (ors_with Silent) (Some "key"%string) 7 9 8 9
                    sample_world)))
    = [Some 10%Q].
Proof.
  split.
  - intros ors key lat lon elat elon w. rewrite get_road_route_eq.
    eexists. split; reflexivity.
  - repeat split; vm_compute; reflexivity.
Qed.

(** C2 fails: a count of 0 raises nothing.  The query returns an empty
    result, having sent no request. *)
Lemma zero_count_is_not_rejected :
  snd (sample_query server_error stable_sorter 0) = Ok [] /\
  wire (fst (sample_query server_error stable_sorter 0)) = [] /\
  ~ (exists e, snd (sample_query server_error stable_sorter 0) = Raise e).
Proof.
  split; [vm_compute; reflexivity|]. split; [vm_compute; reflexivity|].
  intros [e He]. vm_compute in He. discriminate.
Qed.


(** C8, at a failing input.  The five sample candidates are handed to the
    refinement with a provider that refuses the connection for the
    destinations at longitude 8, the second candidate's to begin with.  The
    refinement raises [ConnectionError] after two requests and hands back
    no frame; the candidates' frame is as it was, no row of it bearing a
    road distance.  This is the defect of C1: the exception leaves the loop
    of lines 62-66, and lines 69-71 never run.  (With the same provider
    answering 500 instead, the same call gives the five candidates back in
    their order.) *)
Theorem refinement_returns_no_candidate :
  map name sample_candidates = ["PU 001"; "PU 002"; "PU 003"; "PU 005"; "PU 004"]%string /\
  snd (refine (ors_with Refuses) (Some "key"%string) 9 7 2%nat sample_prefiltered)
    = Raise ConnectionError /\
  length (wire (fst (refine (ors_with Refuses) (Some "key"%string) 9 7 2%nat
                       sample_prefiltered))) = 2%nat /\
  nth_error (heap (fst (refine (ors_with Refuses) (Some "key"%string) 9 7 2%nat
                          sample_prefiltered))) 2%nat = Some sample_candidates /\
  map road_distance_m sample_candidates = [None; None; None; None; None] /\
  names_and_roads sample_routed =
    [("PU 001"%string, Some (Fin 16000)); ("PU 002"%string, Some Inf);
     ("PU 003"%string, Some (Fin 15000)); ("PU 005"%string, Some Inf);
     ("PU 004"%string, Some (Fin 19000))].
Proof.
  repeat split; vm_compute; reflexivity.
Qed.





(** ** The routing calls on their own *)

(** The request [get_road_route_and_distance] builds: origin and
    destination as (longitude, latitude) pairs, no timeout. *)
Definition road_request (key : option string) (start_lat start_lon end_lat end_lon : Q)
  : Request :=
  mkRequest ORS_DIRECTIONS_URL
    (mkBody [(start_lon, start_lat); (end_lon, end_lat)] "geojson")
    (mkHeaders key "application/json") None.

(** The request [get_route_geojson] builds. *)
Definition geojson_request (key : option string) (start_lon start_lat end_lon end_lat : Q)
  : Request :=
  mkRequest app2.ORS_DIRECTIONS_URL
    (mkBody [(start_lon, start_lat); (end_lon, end_lat)] "geojson")
    (mkHeaders key "application/json") (Some 10%Q).

(** X1.  Whatever the provider does, one call of
    [get_road_route_and_distance] sends exactly one request, naming the
    origin and the destination longitude first, and touches neither a frame
    nor the screen. *)
Theorem road_route_one_request
    (ors : list Request -> Request -> Behaviour) (key : option string)
    (start_lat start_lon end_lat end_lon : Q) (w : World) :
  let w' := fst (get_road_route_and_distance ors key start_lat start_lon end_lat end_lon w) in
  wire w' = wire w ++ [road_request key start_lat start_lon end_lat end_lon] /\
  coordinates (json (road_request key start_lat start_lon end_lat end_lon)) =
    [(start_lon, start_lat); (end_lon, end_lat)] /\
  heap w' = heap w /\
  screen w' = screen w.
Proof.
  cbv zeta. rewrite get_road_route_eq. cbv zeta. cbn [fst heap wire screen].
  repeat split.
Qed.

(** X2.  What a returned triple tells: either the status was not 200, and
    then the route is absent and distance and duration are both [Inf]; or
    the status was 200, the route is the whole payload, and distance and
    duration are those of the first segment of its first feature, whatever
    segments and features follow. *)
Theorem road_route_returned
    (ors : list Request -> Request -> Behaviour) (key : option string)
    (start_lat start_lon end_lat end_lon : Q) (w w' : World)
    (g : option GeoJSON) (d t : pyfloat) :
  get_road_route_and_distance ors key start_lat start_lon end_lat end_lon w
    = (w', Ok (g, d, t)) ->
  exists r,
    ors (wire w) (road_request key start_lat start_lon end_lat end_lon) = Answers r /\
    ((status_code r <> 200%Z /\ g = None /\ d = Inf /\ t = Inf) \/
     (status_code r = 200%Z /\
      exists data f0 fs p s0 ss,
        payload r = Some data /\ g = Some data /\
        features data = Some (f0 :: fs) /\ properties f0 = Some p /\
        segments p = Some (s0 :: ss) /\
        distance s0 = Some d /\ duration s0 = Some t)).
Proof.
  rewrite get_road_route_eq. cbv zeta. unfold route_call. fold (road_request key start_lat start_lon end_lat end_lon).
  intros H.
  destruct (ors (wire w) (road_request key start_lat start_lon end_lat end_lon))
    as [r| |]; try (inversion H; fail).
  exists r. split; [reflexivity|].
  unfold read_route, first_segment in H.
  destruct (status_code r =? 200)%Z eqn:Es.
  - right. apply Z.eqb_eq in Es. split; [exact Es|].
    unfold payload.
    destruct (content r) as [[|data]|]; try (inversion H; fail).
    destruct (features data) as [[|f0 fs]|] eqn:Ef; try (inversion H; fail).
    destruct (properties f0) as [p|] eqn:Ep; try (inversion H; fail).
    destruct (segments p) as [[|s0 ss]|] eqn:Ess; try (inversion H; fail).
    destruct (distance s0) as [d0|] eqn:Ed; try (inversion H; fail).
    destruct (duration s0) as [t0|] eqn:Et; try (inversion H; fail).
    inversion H; subst. exists data, f0, fs, p, s0, ss. repeat split; assumption.
  - left. apply Z.eqb_neq in Es. inversion H; subst. repeat split. exact Es.
Qed.

(** X3.  A response whose status is not 200 never raises, whatever its
    body: the call returns no route and [Inf] twice. *)
Theorem road_route_bad_status
    (ors : list Request -> Request -> Behaviour) (key : option string)
    (start_lat start_lon end_lat end_lon : Q) (w : World) (r : Response) :
  ors (wire w) (road_request key start_lat start_lon end_lat end_lon) = Answers r ->
  status_code r <> 200%Z ->
  snd (get_road_route_and_distance ors key start_lat start_lon end_lat end_lon w)
    = Ok (None, Inf, Inf).
Proof.
  intros Ha Hs. rewrite get_road_route_eq. cbv zeta. cbn [snd].
  unfold route_call. fold (road_request key start_lat start_lon end_lat end_lon).
  rewrite Ha. unfold read_route.
  apply Z.eqb_neq in Hs. rewrite Hs. reflexivity.
Qed.

(** What [get_route_geojson] returns and shows for each behaviour of the
    provider. *)
Definition geojson_outcome (b : Behaviour) : option GeoJSON * list UiEvent :=
  match b with
  | Answers r =>
      if (status_code r =? 200)%Z then
        match content r with
        | Some (JObject d) => (Some d, [])
        | Some JNull => (None, [])
        | None => (None, [RoutingRequestFailed JSONDecodeError])
        end
      else (None, [RoutingApiError (status_code r) (text r)])
  | Refuses => (None, [RoutingRequestFailed ConnectionError])
  | Silent => (None, [RoutingRequestFailed Timeout])
  end.

Lemma get_route_geojson_eq
    (ors : list Request -> Request -> Behaviour) (key : option string)
    (start_lon start_lat end_lon end_lat : Q) (w : World) :
  get_route_geojson ors key start_lon start_lat end_lon end_lat w =
  let req := geojson_request key start_lon start_lat end_lon end_lat in
  let res := geojson_outcome (ors (wire w) req) in
  (mkWorld (heap w) (wire w ++ [req]) (screen w ++ snd res), Ok (fst res)).
Proof.
  destruct w as [h wi sc]. unfold get_route_geojson, try_except, geojson_request.
  cbv zeta. unfold bind at 1. unfold requests_post. cbn [heap wire screen].
  destruct (ors wi _) as [r| |]; cbn [geojson_outcome fst snd];
    try reflexivity.
  destruct (status_code r =? 200)%Z.
  - unfold response_json. destruct (content r) as [[|d]|]; cbn [fst snd].
    + unfold ret. rewrite app_nil_r. reflexivity.
    + unfold ret. rewrite app_nil_r. reflexivity.
    + reflexivity.
  - reflexivity.
Qed.

(** X4.  [get_route_geojson] always returns: it neither raises nor waits
    for ever, whatever the provider does.  It sends exactly one request,
    with a timeout of 10 seconds and the two points longitude first, and
    touches no frame. *)
Theorem route_geojson_always_returns
    (ors : list Request -> Request -> Behaviour) (key : option string)
    (start_lon start_lat end_lon end_lat : Q) (w : World) :
  exists w' route,
    get_route_geojson ors key start_lon start_lat end_lon end_lat w = (w', Ok route) /\
    wire w' = wire w ++ [geojson_request key start_lon start_lat end_lon end_lat] /\
    timeout (geojson_request key start_lon start_lat end_lon end_lat) = Some 10%Q /\
    coordinates (json (geojson_request key start_lon start_lat end_lon end_lat)) =
      [(start_lon, start_lat); (end_lon, end_lat)] /\
    heap w' = heap w.
Proof.
  eexists _, _. rewrite get_route_geojson_eq. cbv zeta.
  split; [reflexivity|]. cbn [heap wire]. repeat split.
Qed.

(** X5.  [get_route_geojson] returns a route exactly when the provider
    answered with status 200 and a body that is a JSON object, and the
    route is then that object as it came (its features are not looked at),
    nothing being shown.  When it returns no route, either the provider
    answered with status 200 and the body [null], and nothing is shown, or
    exactly one error message is shown: the status and the text of an
    answer that is not a 200, or the exception the request or the parsing
    raised. *)
Theorem route_geojson_result
    (ors : list Request -> Request -> Behaviour) (key : option string)
    (start_lon start_lat end_lon end_lat : Q) (w w' : World) (route : option GeoJSON) :
  get_route_geojson ors key start_lon start_lat end_lon end_lat w = (w', Ok route) ->
  (forall data,
      route = Some data <->
      exists r,
        ors (wire w) (geojson_request key start_lon start_lat end_lon end_lat)
          = Answers r /\
        status_code r = 200%Z /\ content r = Some (JObject data)) /\
  (route <> None -> screen w' = screen w) /\
  (route = None ->
   (screen w' = screen w /\
    exists r,
      ors (wire w) (geojson_request key start_lon start_lat end_lon end_lat)
        = Answers r /\
      status_code r = 200%Z /\ content r = Some JNull) \/
   (exists r,
      ors (wire w) (geojson_request key start_lon start_lat end_lon end_lat)
        = Answers r /\
      status_code r <> 200%Z /\
      screen w' = screen w ++ [RoutingApiError (status_code r) (text r)]) \/
   (exists e, screen w' = screen w ++ [RoutingRequestFailed e])).
Proof.
  rewrite get_route_geojson_eq. cbv zeta. intros H. inversion H; subst. clear H.
  cbn [screen].
  destruct (ors (wire w) (geojson_request key start_lon start_lat end_lon end_lat))
    as [r| |] eqn:Eb; cbn [geojson_outcome].
  - destruct (status_code r =? 200)%Z eqn:Es.
    + apply Z.eqb_eq in Es. destruct (content r) as [[|d]|] eqn:Ep; cbn [fst snd].
      * split; [|split].
        -- intros data. split; [discriminate|].
           intros [r' [Hr' [_ Hp]]]. inversion Hr'; subst. congruence.
        -- congruence.
        -- intros _. left. split; [apply app_nil_r|]. exists r. auto.
      * split; [|split].
        -- intros data. split.
           ++ intros Hd. inversion Hd; subst. exists r. auto.
           ++ intros [r' [Hr' [_ Hp]]]. inversion Hr'; subst. congruence.
        -- intros _. apply app_nil_r.
        -- discriminate.
      * split; [|split].
        -- intros data. split; [discriminate|].
           intros [r' [Hr' [_ Hp]]]. inversion Hr'; subst. congruence.
        -- congruence.
        -- intros _. right. right. eexists. reflexivity.
    + apply Z.eqb_neq in Es. cbn [fst snd]. split; [|split].
      * intros data. split; [discriminate|].
        intros [r' [Hr' [Hs _]]]. inversion Hr'; subst. contradiction.
      * congruence.
      * intros _. right. left. exists r. auto.
  - cbn [fst snd]. split; [|split].
    + intros data. split; [discriminate|]. intros [r' [Hr' _]]. discriminate.
    + congruence.
    + intros _. right. right. eexists. reflexivity.
  - cbn [fst snd]. split; [|split].
    + intros data. split; [discriminate|]. intros [r' [Hr' _]]. discriminate.
    + congruence.
    + intros _. right. right. eexists. reflexivity.
Qed.

(** ** The geodesic-only table of app2.py *)

From Stdlib Require Import Lqa.

(** The integer [Series.round] takes a scaled value to. *)
Definition half_even (s : Q) : Z :=
  let f := Qfloor s in
  let frac := (s - inject_Z f)%Q in
  if (if Qle_bool frac (1 # 2)
      then (if Qle_bool (1 # 2) frac then negb (Z.even f) else false)
      else true)
  then (f + 1)%Z else f.

(** The row [find_closest_polling_units] makes of a unit of the table: its
    name, ward, LGA, state, latitude and longitude, and its geodesic
    distance to the hundredth.  The last digit is left open, numpy rounding
    the double and not the number it stands for; for a distance on the
    Earth, here anything up to 10^9 m, the rounded value is a number within
    a hundredth of the distance. *)
Definition closest_of (geodesic : Q * Q -> Q * Q -> Exn + Q) (lat lon : Q)
    (row : Row) (c : ClosestRow) : Prop :=
  exists m,
    geodesic (lat, lon) (geom_y (geometry row), geom_x (geometry row)) = inr m /\
    Polling_Unit c = name row /\ Ward c = ward row /\
    LGA c = lga row /\ State c = state row /\
    Latitude c = geom_y (geometry row) /\ Longitude c = geom_x (geometry row) /\
    ((0 <= m)%Q -> (m <= 1000000000)%Q ->
     exists d, Distance c = Fin d /\ (Qabs (d - m) <= 1 # 100)%Q).

(** The unit [row] with its distance in the "Distance (m)" column. *)
Definition distanced (geodesic : Q * Q -> Q * Q -> Exn + Q) (lat lon : Q)
    (row c : Row) : Prop :=
  exists m,
    geodesic (lat, lon) (geom_y (geometry row), geom_x (geometry row)) = inr m /\
    c = set_Distance_m row (Fin m).

Definition closest_row (r : Row) : ClosestRow :=
  mkClosestRow (name r) (ward r) (lga r) (state r)
    (geom_y (geometry r)) (geom_x (geometry r)) (round2 (value Distance_m r)).

Lemma round2_half_even (q : Q) :
  round2 (Fin q) = Fin (inject_Z (half_even (q * 100)) / 100)%Q.
Proof. reflexivity. Qed.

Lemma half_even_bounds (s : Q) :
  (Qfloor s <= half_even s <= Qfloor s + 1)%Z.
Proof.
  unfold half_even. cbv zeta.
  destruct (if Qle_bool _ _ then _ else true); lia.
Qed.

Lemma round2_close (m : Q) :
  exists d, round2 (Fin m) = Fin d /\ (Qabs (d - m) <= 1 # 100)%Q.
Proof.
  exists (inject_Z (half_even (m * 100)) / 100)%Q.
  split; [apply round2_half_even|].
  pose proof (half_even_bounds (m * 100)) as [Hlo Hhi].
  pose proof (Qfloor_le (m * 100)) as Hfl.
  pose proof (Qlt_floor (m * 100)) as Hfu.
  rewrite Zle_Qle in Hlo, Hhi. rewrite inject_Z_plus in Hhi, Hfu.
  apply Qabs_Qle_condition.
  change (inject_Z 1) with 1%Q in *.
  generalize dependent (inject_Z (half_even (m * 100))).
  generalize dependent (inject_Z (Qfloor (m * 100))).
  intros f Hfl Hfu a Hlo Hhi. unfold Qdiv. change (/ 100)%Q with (1 # 100)%Q.
  split; lra.
Qed.

Lemma half_even_mono (s t : Q) : (s <= t)%Q -> (half_even s <= half_even t)%Z.
Proof.
  intros Hst. pose proof (Qfloor_resp_le _ _ Hst) as Hf.
  destruct (Z.eq_dec (Qfloor s) (Qfloor t)) as [E|N].
  - unfold half_even. cbv zeta. rewrite <- E.
    set (f := Qfloor s).
    assert (Hfr : (s - inject_Z f <= t - inject_Z f)%Q) by lra.
    destruct (Qle_bool (s - inject_Z f) (1 # 2)) eqn:E1.
    + destruct (Qle_bool (1 # 2) (s - inject_Z f)) eqn:E2.
      * destruct (negb (Z.even f)) eqn:E3.
        -- destruct (Qle_bool (t - inject_Z f) (1 # 2)) eqn:E4; [|lia].
           assert (E5 : Qle_bool (1 # 2) (t - inject_Z f) = true).
           { apply Qle_bool_iff. apply Qle_bool_iff in E2. lra. }
           rewrite E5. lia.
        -- destruct (if Qle_bool (t - inject_Z f) (1 # 2) then _ else true); lia.
      * destruct (if Qle_bool (t - inject_Z f) (1 # 2) then _ else true); lia.
    + assert (E4 : Qle_bool (t - inject_Z f) (1 # 2) = false).
      { destruct (Qle_bool (t - inject_Z f) (1 # 2)) eqn:E4; [|reflexivity].
        apply Qle_bool_iff in E4.
        assert (Qle_bool (s - inject_Z f) (1 # 2) = true)
          by (apply Qle_bool_iff; lra).
        congruence. }
      rewrite E4. lia.
  - pose proof (half_even_bounds s). pose proof (half_even_bounds t). lia.
Qed.

(** Rounding to the hundredth keeps the order. *)
Lemma round2_mono (a b : pyfloat) :
  fle a b = true -> fle (round2 a) (round2 b) = true.
Proof.
  destruct a as [p|], b as [q|]; simpl fle at 1; intros H; try discriminate;
    try reflexivity.
  rewrite !round2_half_even. simpl fle. apply Qle_bool_iff in H. apply Qle_bool_iff.
  assert (Hm : (half_even (p * 100) <= half_even (q * 100))%Z)
    by (apply half_even_mono; lra).
  apply Qmult_le_compat_r; [|discriminate].
  rewrite <- Zle_Qle. exact Hm.
Qed.

Lemma closest_distance_fn (geodesic : Q * Q -> Q * Q -> Exn + Q) (lat lon : Q)
    (df : Frame) :
  (forall row, In row df ->
     exists m, geodesic (lat, lon) (geom_y (geometry row), geom_x (geometry row)) = inr m) ->
  exists ds,
    traverse (fun pu => match geodesic (lat, lon)
                                (geom_y (geometry pu), geom_x (geometry pu)) with
                        | inl e => inl e
                        | inr m => inr (Fin m)
                        end) df = inr ds.
Proof.
  intros H. apply traverse_ok. intros row Hrow.
  destruct (H row Hrow) as [m ->]. eexists. reflexivity.
Qed.

Lemma attach_distanced (geodesic : Q * Q -> Q * Q -> Exn + Q) (lat lon : Q)
    (df : Frame) (ds : list pyfloat) :
  traverse (fun pu => match geodesic (lat, lon)
                              (geom_y (geometry pu), geom_x (geometry pu)) with
                      | inl e => inl e
                      | inr m => inr (Fin m)
                      end) df = inr ds ->
  Forall2 (distanced geodesic lat lon) df (attach set_Distance_m df ds).
Proof.
  unfold attach. revert ds.
  induction df as [|row df IH]; simpl; intros ds H.
  - inversion H. constructor.
  - destruct (geodesic _ _) as [e|m] eqn:Em; [discriminate|].
    destruct (traverse _ df) as [e|ds'] eqn:E; [discriminate|].
    inversion H; subst. simpl. constructor; [|apply IH; reflexivity].
    exists m. split; [exact Em|reflexivity].
Qed.

(** What a completed call of [find_closest_polling_units] returned. *)
Lemma find_closest_returns (geodesic : Q * Q -> Q * Q -> Exn + Q) (lat lon : Q)
    (units : ref) (n : Z) (w w' : World) (out : list ClosestRow) :
  find_closest_polling_units geodesic lat lon units n w = (w', Ok out) ->
  exists df g,
    nth_error (heap w) units = Some df /\
    Forall2 (distanced geodesic lat lon) df g /\
    out = map closest_row (select n Distance_m g) /\
    wire w' = wire w /\ screen w' = screen w.
Proof.
  rewrite find_closest_eq. intros H.
  destruct (nth_error (heap w) units) as [df|]; [|discriminate].
  destruct (traverse _ df) as [e|ds] eqn:Hds; [discriminate|].
  cbv zeta in H. inversion H; subst. clear H.
  exists df, (attach set_Distance_m df ds).
  split; [reflexivity|]. split; [apply attach_distanced, Hds|].
  repeat split.
Qed.

(** X6.  On a loaded table with at least one unit, whose units all have a
    geodesic distance, [find_closest_polling_units] returns a table of
    exactly [min n |table|] rows (none for [n <= 0]); it sends no routing
    request and shows nothing. *)
Theorem closest_count_no_request (geodesic : Q * Q -> Q * Q -> Exn + Q) (lat lon : Q)
    (units : ref) (n : Z) (w : World) (df : Frame) :
  nth_error (heap w) units = Some df ->
  df <> [] ->
  (forall row, In row df ->
     exists m, geodesic (lat, lon) (geom_y (geometry row), geom_x (geometry row)) = inr m) ->
  exists w' out,
    find_closest_polling_units geodesic lat lon units n w = (w', Ok out) /\
    length out = Nat.min (Z.to_nat n) (length df) /\
    wire w' = wire w /\ screen w' = screen w.
Proof.
  intros Hdf _ Hgeo. destruct (closest_distance_fn geodesic lat lon df Hgeo) as [ds Hds].
  pose proof (traverse_length _ _ _ Hds) as Hlen.
  eexists _, _. rewrite find_closest_eq, Hdf, Hds. cbv zeta.
  split; [reflexivity|]. cbn [wire screen].
  rewrite length_map, select_length, attach_length by exact Hlen.
  repeat split.
Qed.

(** X7.  The "Distance (m)" column of the table
    [find_closest_polling_units] returns is in ascending order: rounding to
    two decimals does not disturb the order [nsmallest] gave the rows. *)
Theorem closest_distances_ascend (geodesic : Q * Q -> Q * Q -> Exn + Q) (lat lon : Q)
    (units : ref) (n : Z) (w w' : World) (out : list ClosestRow) :
  find_closest_polling_units geodesic lat lon units n w = (w', Ok out) ->
  ascending (map Distance out).
Proof.
  intros H. apply find_closest_returns in H.
  destruct H as [df [g [_ [_ [-> _]]]]].
  rewrite select_firstn.
  assert (Hs : StronglySorted (key_le Row (value Distance_m))
                 (firstn (Z.to_nat n) (stable_sort (value Distance_m) g)))
    by (apply strongly_sorted_firstn, sorted_strongly, stable_sort_sorted).
  unfold ascending. induction Hs as [|r l Hs IH Hall]; simpl; constructor.
  - exact IH.
  - rewrite Forall_forall in *. intros d Hd.
    apply in_map_iff in Hd. destruct Hd as [c [<- Hc]].
    apply in_map_iff in Hc. destruct Hc as [x [<- Hx]].
    simpl. apply round2_mono, Hall, Hx.
Qed.

(** X8.  The rows [find_closest_polling_units] returns are made, in order,
    of units of the table: each bears the name, ward, LGA, state, latitude
    and longitude of its unit, and for distance a number within a hundredth
    of the unit's geodesic distance when that is at most 10^9 m.  No unit
    of the table that was left out is geodesically nearer than one that was
    kept. *)
Theorem closest_rows_nearest (geodesic : Q * Q -> Q * Q -> Exn + Q) (lat lon : Q)
    (units : ref) (n : Z) (w w' : World) (out : list ClosestRow) :
  find_closest_polling_units geodesic lat lon units n w = (w', Ok out) ->
  exists df kept rest,
    nth_error (heap w) units = Some df /\
    Permutation df (kept ++ rest) /\
    Forall2 (closest_of geodesic lat lon) kept out /\
    forall k r mk mr,
      In k kept -> In r rest ->
      geodesic (lat, lon) (geom_y (geometry k), geom_x (geometry k)) = inr mk ->
      geodesic (lat, lon) (geom_y (geometry r), geom_x (geometry r)) = inr mr ->
      (mk <= mr)%Q.
Proof.
  intros H. apply find_closest_returns in H.
  destruct H as [df [g [Hdf [Hg [-> _]]]]].
  rewrite select_firstn.
  set (s := stable_sort (value Distance_m) g).
  assert (Hperm : Permutation g (firstn (Z.to_nat n) s ++ skipn (Z.to_nat n) s))
    by (rewrite firstn_skipn; apply stable_sort_perm).
  apply Forall2_flip in Hg.
  destruct (Permutation_Forall2 Hperm Hg) as [df' [Hdf' Hall]].
  apply Forall2_app_inv_l in Hall.
  destruct Hall as [kept [rest [Hk [Hr ->]]]].
  exists df, kept, rest. split; [exact Hdf|]. split; [exact Hdf'|]. split.
  - clear - Hk. induction Hk as [|c row l l' [m [Hm ->]] Hk IH]; simpl; constructor.
    + exists m. split; [exact Hm|]. unfold closest_row. cbn.
      repeat (split; [reflexivity|]).
      intros _ _. apply round2_close.
    + exact IH.
  - intros k r mk mr Hink Hinr Hmk Hmr.
    destruct (Forall2_In_r _ _ _ _ Hk Hink) as [ck [Hck [m1 [Hm1 ->]]]].
    destruct (Forall2_In_r _ _ _ _ Hr Hinr) as [cr [Hcr [m2 [Hm2 ->]]]].
    assert (Hs : StronglySorted (key_le Row (value Distance_m))
                   (firstn (Z.to_nat n) s ++ skipn (Z.to_nat n) s))
      by (rewrite firstn_skipn; apply sorted_strongly, stable_sort_sorted).
    pose proof (strongly_sorted_app Row (value Distance_m) _ _ Hs _ _ Hck Hcr) as Hle.
    unfold key_le, value in Hle. simpl in Hle.
    apply Qle_bool_iff in Hle.
    rewrite Hmk in Hm1. rewrite Hmr in Hm2. inversion Hm1; inversion Hm2; subst.
    exact Hle.
Qed.

(** X9.  If the geodesic routine rejects the coordinates of a unit, the
    units before it in the table being accepted,
    [find_closest_polling_units] raises the very exception that routine
    raised there, having sent no request and shown nothing; the copy of the
    table it made is all it leaves. *)
Theorem closest_rejected_raises (geodesic : Q * Q -> Q * Q -> Exn + Q) (lat lon : Q)
    (units : ref) (n : Z) (w : World) (df pre : Frame) (row : Row) (post : Frame)
    (e : Exn) :
  nth_error (heap w) units = Some df ->
  df = pre ++ row :: post ->
  (forall x, In x pre ->
     exists m, geodesic (lat, lon) (geom_y (geometry x), geom_x (geometry x)) = inr m) ->
  geodesic (lat, lon) (geom_y (geometry row), geom_x (geometry row)) = inl e ->
  find_closest_polling_units geodesic lat lon units n w =
    (mkWorld (heap w ++ [df]) (wire w) (screen w), Raise e).
Proof.
  intros Hdf Hsplit Hpre He.
  assert (Ht : traverse
                 (fun pu => match geodesic (lat, lon)
                                    (geom_y (geometry pu), geom_x (geometry pu)) with
                            | inl e => inl e
                            | inr m => inr (Fin m)
                            end) df = inl e).
  { subst df. apply traverse_first_err.
    - intros x Hx. destruct (Hpre x Hx) as [m Hm]. exists (Fin m).
      rewrite Hm. reflexivity.
    - rewrite He. reflexivity. }
  rewrite find_closest_eq, Hdf, Ht. reflexivity.
Qed.

(** ** More on the rows of a result *)

(** A route is missing only beside an infinite distance and duration. *)
Definition unreachable_if_absent (r : Route) : Prop :=
  let '(_, d, t, g) := r in g = None -> d = Inf /\ t = Inf.

(** A row with its four added columns, fit for display. *)
Definition complete_row (o : Row) : Prop :=
  exists m d t g,
    geo_distance_m o = Some (Fin m) /\
    road_distance_m o = Some d /\
    duration_s o = Some t /\
    route_geojson o = Some g /\
    (g = None -> d = Inf /\ t = Inf).

Lemma route_all_absent (ors : list Request -> Request -> Behaviour)
    (key : option string) (lat lon : Q) (rows : list Row) :
  forall hist h rs,
    route_all ors key lat lon hist rows = (h, Ok rs) ->
    Forall unreachable_if_absent rs.
Proof.
  induction rows as [|row rows IH]; simpl; intros hist h rs H.
  - inversion H. constructor.
  - destruct (route_call ors hist _) as [[[g d] t]| |] eqn:Ec; try discriminate.
    destruct (route_all ors key lat lon _ rows) as [h' [rs'| |]] eqn:E;
      try discriminate.
    inversion H; subst. constructor; [|eapply IH, E].
    unfold unreachable_if_absent. intros ->.
    unfold route_call in Ec.
    destruct (ors hist _) as [r| |]; try discriminate.
    unfold read_route in Ec.
    destruct (status_code r =? 200)%Z.
    + destruct (content r) as [[|data]|]; try discriminate.
      destruct (first_segment data) as [s0| |]; try discriminate.
      destruct (distance s0), (duration s0); discriminate.
    + inversion Ec. auto.
Qed.

Lemma attach_route_complete (rows : list Row) (routes : list Route) :
  Forall (fun c => exists m, geo_distance_m c = Some (Fin m)) rows ->
  Forall unreachable_if_absent routes ->
  Forall complete_row (attach attach_route rows routes).
Proof.
  unfold attach. intros Hrows. revert routes.
  induction Hrows as [|c rows [m Hm] Hrows IH]; intros routes Hroutes; simpl.
  - constructor.
  - destruct Hroutes as [|[[[i d] t] g] routes Habs Hroutes]; simpl;
      constructor; [|apply IH, Hroutes].
    exists m, d, t, g. simpl. repeat split; try assumption; apply Habs; assumption.
Qed.

(** A completed query, with the routing loop it ran. *)
Lemma nearest_pus_routes
    (geodesic : Q * Q -> Q * Q -> Exn + Q)
    (ors : list Request -> Request -> Behaviour) (sorter : SortValues)
    (polling_units : ref) (key : option string) (lat lon : Q) (n : Z)
    (w w' : World) (out : Frame) :
  nearest_pus geodesic ors sorter polling_units key lat lon n w = (w', Ok out) ->
  exists df ds h routes,
    nth_error (heap w) polling_units = Some df /\
    traverse (geo geodesic lat lon) df = inr ds /\
    let c := select (n * 3) geo_distance_m (attach set_geo_distance_m df ds) in
    route_all ors key lat lon (wire w) c = (h, Ok routes) /\
    heap w' = heap w ++ [attach set_geo_distance_m df ds; attach attach_route c routes;
                         order_by sorter (value road_distance_m)
                           (attach attach_route c routes);
                         out] /\
    out = head_rows n (order_by sorter (value road_distance_m)
                         (attach attach_route c routes)).
Proof.
  intros H. rewrite nearest_pus_eq in H.
  destruct (nth_error (heap w) polling_units) as [df|] eqn:Hdf; [|discriminate].
  destruct (no_rows df); [discriminate|].
  destruct (traverse (geo geodesic lat lon) df) as [e|ds] eqn:Hds; [discriminate|].
  cbv zeta in H.
  destruct (route_all ors key lat lon (wire w) _) as [h [routes| |]] eqn:Hr;
    try discriminate.
  inversion H; subst. exists df, ds, h, routes. cbv zeta.
  split; [reflexivity|]. split; [exact Hds|]. split; [exact Hr|].
  split; reflexivity.
Qed.

Lemma nearest_pus_complete
    (geodesic : Q * Q -> Q * Q -> Exn + Q)
    (ors : list Request -> Request -> Behaviour) (sorter : SortValues)
    (polling_units : ref) (key : option string) (lat lon : Q) (n : Z)
    (w w' : World) (out : Frame) :
  nearest_pus geodesic ors sorter polling_units key lat lon n w = (w', Ok out) ->
  Forall complete_row out.
Proof.
  intros H. apply nearest_pus_routes in H.
  destruct H as [df [ds [h [routes [Hdf [Hds [Hr [_ ->]]]]]]]]. cbv zeta in *.
  set (c := select (n * 3) geo_distance_m (attach set_geo_distance_m df ds)) in *.
  assert (Hc : Forall (fun r => exists m, geo_distance_m r = Some (Fin m)) c).
  { rewrite Forall_forall. intros r Hin. unfold c in Hin.
    rewrite select_firstn in Hin. apply In_firstn in Hin.
    apply (Permutation_in _ (Permutation_sym (stable_sort_perm _ _ _))) in Hin.
    destruct (Forall2_In_r _ _ _ _ (attach_measured geodesic lat lon df ds Hds) Hin)
      as [row [_ [m [_ ->]]]].
    exists m. reflexivity. }
  pose proof (attach_route_complete c routes Hc
                (route_all_absent ors key lat lon c _ _ _ Hr)) as Hall.
  destruct (head_rows_firstn n
              (order_by sorter (value road_distance_m) (attach attach_route c routes)))
    as [k ->].
  rewrite Forall_forall in *. intros o Ho. apply Hall.
  apply In_firstn in Ho.
  apply (Permutation_in _ (Permutation_sym (order_by_perm sorter _ _)) Ho).
Qed.

(** X10.  Every row of a result carries its geodesic distance, a finite
    number, and its road distance, duration and route; and where the route
    is missing, road distance and duration are both [Inf]. *)
Theorem result_rows_complete
    (geodesic : Q * Q -> Q * Q -> Exn + Q)
    (ors : list Request -> Request -> Behaviour) (sorter : SortValues)
    (polling_units : ref) (key : option string) (lat lon : Q) (n : Z)
    (w w' : World) (out : Frame) :
  nearest_pus geodesic ors sorter polling_units key lat lon n w = (w', Ok out) ->
  Forall complete_row out.
Proof.
  exact (nearest_pus_complete geodesic ors sorter polling_units key lat lon n w w' out).
Qed.

(** X11.  For a count [n >= 0] the rows of a result are the best of the
    refined candidates: the frame the refinement filled splits into the
    rows returned and the rows left out, and no row left out has a smaller
    road distance than a row returned. *)
Theorem result_best_of_candidates
    (geodesic : Q * Q -> Q * Q -> Exn + Q)
    (ors : list Request -> Request -> Behaviour) (sorter : SortValues)
    (polling_units : ref) (key : option string) (lat lon : Q) (n : Z)
    (w w' : World) (out : Frame) :
  (0 <= n)%Z ->
  nearest_pus geodesic ors sorter polling_units key lat lon n w = (w', Ok out) ->
  exists refined rest,
    nth_error (heap w') (S (length (heap w))) = Some refined /\
    Permutation refined (out ++ rest) /\
    forall o x, In o out -> In x rest ->
      fle (value road_distance_m o) (value road_distance_m x) = true.
Proof.
  intros Hn H. apply nearest_pus_routes in H.
  destruct H as [df [ds [h [routes [_ [_ [_ [Hheap Hout]]]]]]]]. cbv zeta in *.
  set (r := attach attach_route
              (select (n * 3) geo_distance_m (attach set_geo_distance_m df ds)) routes)
    in *.
  set (s := order_by sorter (value road_distance_m) r) in *.
  assert (Hhead : out = firstn (Z.to_nat n) s)
    by (rewrite Hout; unfold head_rows; apply Z.leb_le in Hn; rewrite Hn; reflexivity).
  exists r, (skipn (Z.to_nat n) s).
  split; [rewrite Hheap, (nth_error_app_at (heap w) _ 1); reflexivity|].
  rewrite Hhead. split.
  - rewrite firstn_skipn. apply order_by_perm.
  - apply (strongly_sorted_app Row (value road_distance_m)).
    rewrite firstn_skipn. apply sorted_strongly, order_by_sorted.
Qed.

(** ** The added properties on the sample table *)

Definition returned {A} (o : Outcome A) (default : A) : A :=
  match o with
  | Ok a => a
  | _ => default
  end.

(** The routing call from (9 N, 7 E) to "PU 003", and the sample table
    seen through [find_closest_polling_units] with a count of 3. *)
Definition sample_route_call : World * Outcome (option GeoJSON * pyfloat * pyfloat) :=
  get_road_route_and_distance (ors_with server_error) (Some "key"%string) 9 7 9 6
    sample_world.

Definition sample_closest : World * Outcome (list ClosestRow) :=
  find_closest_polling_units grid_geodesic 9 7 0%nat 3 sample_world.

(** A found route read back from the call's result. *)
Lemma road_route_returned_witness :
  exists r,
    ors_with server_error (wire sample_world)
      (road_request (Some "key"%string) 9 7 9 6) = Answers r /\
    ((status_code r <> 200%Z /\
      fst (fst (returned (snd sample_route_call) (None, Inf, Inf))) = None /\
      snd (fst (returned (snd sample_route_call) (None, Inf, Inf))) = Inf /\
      snd (returned (snd sample_route_call) (None, Inf, Inf)) = Inf) \/
     (status_code r = 200%Z /\
      exists data f0 fs p s0 ss,
        payload r = Some data /\
        fst (fst (returned (snd sample_route_call) (None, Inf, Inf))) = Some data /\
        features data = Some (f0 :: fs) /\ properties f0 = Some p /\
        segments p = Some (s0 :: ss) /\
        distance s0 = Some (snd (fst (returned (snd sample_route_call) (None, Inf, Inf)))) /\
        duration s0 = Some (snd (returned (snd sample_route_call) (None, Inf, Inf))))).
Proof.
  apply (road_route_returned (ors_with server_error) (Some "key"%string) 9 7 9 6
           sample_world (fst sample_route_call)).
  vm_compute. reflexivity.
Defined.

(** The provider's status 500 for "PU 002". *)
Lemma road_route_bad_status_witness :
  snd (get_road_route_and_distance (ors_with server_error) (Some "key"%string) 9 7 9 8
         sample_world) = Ok (None, Inf, Inf).
Proof.
  apply (road_route_bad_status (ors_with server_error) (Some "key"%string) 9 7 9 8
           sample_world (mkResponse 500 "Internal Server Error" None)).
  - vm_compute. reflexivity.
  - discriminate.
Defined.

(** The route to "PU 003" asked of the sample provider by app2.py. *)
Lemma route_geojson_result_witness :
  (forall data,
      returned (snd (get_route_geojson (ors_with server_error) (Some "key"%string)
                       7 9 6 9 sample_world)) None = Some data <->
      exists r,
        ors_with server_error (wire sample_world)
          (geojson_request (Some "key"%string) 7 9 6 9) = Answers r /\
        status_code r = 200%Z /\ content r = Some (JObject data)) /\
  (returned (snd (get_route_geojson (ors_with server_error) (Some "key"%string)
                    7 9 6 9 sample_world)) None <> None ->
   screen (fst (get_route_geojson (ors_with server_error) (Some "key"%string)
                  7 9 6 9 sample_world)) = screen sample_world) /\
  (returned (snd (get_route_geojson (ors_with server_error) (Some "key"%string)
                    7 9 6 9 sample_world)) None = None ->
   (screen (fst (get_route_geojson (ors_with server_error) (Some "key"%string)
                   7 9 6 9 sample_world)) = screen sample_world /\
    exists r,
      ors_with server_error (wire sample_world)
        (geojson_request (Some "key"%string) 7 9 6 9) = Answers r /\
      status_code r = 200%Z /\ content r = Some JNull) \/
   (exists r,
      ors_with server_error (wire sample_world)
        (geojson_request (Some "key"%string) 7 9 6 9) = Answers r /\
      status_code r <> 200%Z /\
      screen (fst (get_route_geojson (ors_with server_error) (Some "key"%string)
                     7 9 6 9 sample_world)) =
        screen sample_world ++ [RoutingApiError (status_code r) (text r)]) \/
   (exists e,
      screen (fst (get_route_geojson (ors_with server_error) (Some "key"%string)
                     7 9 6 9 sample_world)) =
        screen sample_world ++ [RoutingRequestFailed e])).
Proof.
  apply (route_geojson_result (ors_with server_error) (Some "key"%string) 7 9 6 9
           sample_world).
  vm_compute. reflexivity.
Defined.

(** The three nearest of the five sample units. *)
Lemma closest_count_no_request_witness :
  exists w' out,
    find_closest_polling_units grid_geodesic 9 7 0%nat 3 sample_world = (w', Ok out) /\
    length out = Nat.min (Z.to_nat 3) (length sample_units) /\
    wire w' = wire sample_world /\ screen w' = screen sample_world.
Proof.
  apply (closest_count_no_request grid_geodesic 9 7 0%nat 3 sample_world sample_units).
  - reflexivity.
  - discriminate.
  - exact sample_geodesic_defined.
Defined.

Lemma closest_distances_ascend_witness :
  ascending (map Distance (returned (snd sample_closest) [])).
Proof.
  apply (closest_distances_ascend grid_geodesic 9 7 0%nat 3 sample_world
           (fst sample_closest)).
  vm_compute. reflexivity.
Defined.

Lemma closest_rows_nearest_witness :
  exists df kept rest,
    nth_error (heap sample_world) 0%nat = Some df /\
    Permutation df (kept ++ rest) /\
    Forall2 (closest_of grid_geodesic 9 7) kept (returned (snd sample_closest) []) /\
    forall k r mk mr,
      In k kept -> In r rest ->
      grid_geodesic (9, 7) (geom_y (geometry k), geom_x (geometry k)) = inr mk ->
      grid_geodesic (9, 7) (geom_y (geometry r), geom_x (geometry r)) = inr mr ->
      (mk <= mr)%Q.
Proof.
  apply (closest_rows_nearest grid_geodesic 9 7 0%nat 3 sample_world
           (fst sample_closest)).
  vm_compute. reflexivity.
Defined.

(** Latitude 200, which the grid rejects at the first unit. *)
Lemma closest_rejected_raises_witness :
  find_closest_polling_units grid_geodesic 200 7 0%nat 3 sample_world =
    (mkWorld (heap sample_world ++ [sample_units]) (wire sample_world)
       (screen sample_world),
     Raise ValueError).
Proof.
  apply (closest_rejected_raises grid_geodesic 200 7 0%nat 3 sample_world sample_units
           [] (unit_at 0 "PU 001" 7 9)
           [unit_at 1 "PU 002" 8 9; unit_at 2 "PU 003" 6 9;
            unit_at 3 "PU 004" 7 12; unit_at 4 "PU 005" 8 10]).
  - reflexivity.
  - reflexivity.
  - intros x [].
  - vm_compute. reflexivity.
Defined.

(** The sample query for 2 units. *)
Lemma result_rows_complete_witness :
  Forall complete_row (rows_of (snd (sample_query server_error stable_sorter 2))).
Proof.
  apply (result_rows_complete grid_geodesic (ors_with server_error) stable_sorter 0%nat
           (Some "key"%string) 9 7 2 sample_world
           (fst (sample_query server_error stable_sorter 2))).
  vm_compute. reflexivity.
Defined.

Lemma result_best_of_candidates_witness :
  exists refined rest,
    nth_error (heap (fst (sample_query server_error stable_sorter 2)))
      (S (length (heap sample_world))) = Some refined /\
    Permutation refined
      (rows_of (snd (sample_query server_error stable_sorter 2)) ++ rest) /\
    forall o x,
      In o (rows_of (snd (sample_query server_error stable_sorter 2))) -> In x rest ->
      fle (value road_distance_m o) (value road_distance_m x) = true.
Proof.
  apply (result_best_of_candidates grid_geodesic (ors_with server_error) stable_sorter
           0%nat (Some "key"%string) 9 7 2 sample_world
           (fst (sample_query server_error stable_sorter 2))).
  - lia.
  - vm_compute. reflexivity.
Defined.

(** ** The two pages

    One run of a Streamlit script, from the values its widgets hand it to
    the elements it renders.  Texts that format a number are kept as the
    numbers they format, and the CSV offered for download as the table it
    is made of. *)

Record Coords : Type := mkCoords {
  latitude : Q;
  longitude : Q
}.

(** [get_geolocation()] gives [None], a dict without "coords", or a dict
    with them; the other widgets give their current value. *)
Record Inputs : Type := mkInputs {
  get_geolocation : option (option Coords);
  number_input_latitude : Q;
  number_input_longitude : Q;
  slider : Z;
  button : bool;
  selectbox : nat
}.

Inductive Popup : Type :=
| PopupText (s : string)
| PopupUnit (unit ward lga state : string) (distance_m : pyfloat).

Record Marker : Type := mkMarker {
  location : Q * Q;
  popup : Popup;
  icon_color : string
}.

Record FoliumMap : Type := mkFoliumMap {
  map_location : Q * Q;
  zoom_start : Z;
  markers : list Marker;
  geojson_layer : option GeoJSON
}.

Module app.
Record DisplayRow : Type := mkDisplayRow {
  Polling_Unit : string;
  Ward : string;
  LGA : string;
  State : string;
  Road_Distance_m : pyfloat;
  Duration_s : pyfloat
}.
End app.

Inductive Element : Type :=
| Success (lat lon : Q)
| Warning (text : string)
| NumberInput (label : string)
| Slider (label : string) (lo hi value : Z)
| Button (label : string)
| Subheader (text : string)
| SubheaderCount (n : Z) (text : string)
| DataframeNearest (rows : list app.DisplayRow)
| DataframeClosest (rows : list ClosestRow)
| DownloadNearest (label : string) (rows : list app.DisplayRow) (file mime : string)
| DownloadClosest (label : string) (rows : list ClosestRow) (file mime : string)
| Selectbox (label : string) (options : list string)
| StFolium (m : FoliumMap).

(** Python's truth value of a float and of a string. *)
Definition truthy (x : Q) : bool := negb (Qeq_bool x 0).

Definition nonempty (s : string) : bool :=
  match s with
  | EmptyString => false
  | _ => true
  end.

(** app.py lines 80-92, app2.py lines 78-91: the position of the device if
    it is there and both its coordinates are truthy, the two number inputs
    otherwise. *)
Definition acquire_location (i : Inputs) : list Element * (Q * Q) :=
  let manual :=
    ([Warning "GPS access denied. Please enter coordinates manually.";
      NumberInput "Enter Latitude"; NumberInput "Enter Longitude"],
     (number_input_latitude i, number_input_longitude i)) in
  match get_geolocation i with
  | Some (Some coords) =>
      let lat := latitude coords in
      let lon := longitude coords in
      if negb (truthy lat) || negb (truthy lon)
      then (Success lat lon :: fst manual, snd manual)
      else ([Success lat lon], (lat, lon))
  | _ => manual
  end.

(** [frame[["name", ..., "road_distance_m", "duration_s"]]], renamed. *)
Definition display_row (r : Row) : Exn + app.DisplayRow :=
  match road_distance_m r, duration_s r with
  | Some d, Some t => inr (app.mkDisplayRow (name r) (ward r) (lga r) (state r) d t)
  | _, _ => inl KeyError
  end.

(** [st.selectbox(label, options)]: the option at the chosen position,
    [None] when there is none. *)
Definition st_selectbox (options : list string) (i : Inputs) : option string :=
  nth_error options (selectbox i).

(** [frame[frame["name"] == selected_pu].iloc[0]] *)
Definition selected_row_of (rows : Frame) (selected_pu : string) : M Row :=
  first (filter (fun r => String.eqb (name r) selected_pu) rows).

(** app.py lines 94-142 *)
Definition page (geodesic : Q * Q -> Q * Q -> Exn + Q)
    (ors : list Request -> Request -> Behaviour) (sorter : SortValues)
    (polling_units : ref) (ORS_API_KEY : option string) (i : Inputs)
  : M (list Element) :=
  let located := fst (acquire_location i) in
  let lat := fst (snd (acquire_location i)) in
  let lon := snd (snd (acquire_location i)) in
  let n_nearest := slider i in
  let top := located ++ [Slider "Number of nearest polling units" 1 10 5;
                         Button "Find Nearest Polling Units"] in
  if button i then
    nearest_pus <- find_nearest_polling_units geodesic ors sorter polling_units
                     ORS_API_KEY lat lon n_nearest ;;
    rows <- deref nearest_pus ;;
    df_display <- lift (traverse display_row rows) ;;
    let options := map app.Polling_Unit df_display in
    let results :=
      [Subheader "Nearest Polling Units (sorted by shortest distance)";
       DataframeNearest df_display;
       DownloadNearest "Download Nearest Polling Units (CSV)" df_display
         "nearest_polling_units.csv" "text/csv";
       Selectbox "Select a Polling Unit to show route" options] in
    match st_selectbox options i with
    | Some selected_pu =>
        if nonempty selected_pu then
          selected_row <- selected_row_of rows selected_pu ;;
          route_geojson <- getitem (route_geojson selected_row) ;;
          let m :=
            mkFoliumMap (lat, lon) 12
              [mkMarker (lat, lon) (PopupText "Your Location") "blue";
               mkMarker (geom_y (geometry selected_row), geom_x (geometry selected_row))
                 (PopupText (name selected_row ++ " (" ++ ward selected_row ++ " Ward)"))
                 "red"]
              route_geojson in
          ret (top ++ results ++ [StFolium m])
        else ret (top ++ results)
    | None => ret (top ++ results)
    end
  else ret top.

(** Python's truth value of what [get_route_geojson] returned: [None] and
    the object without a member are false. *)
Definition route_truthy (route_geojson : option GeoJSON) : bool :=
  match route_geojson with
  | None => false
  | Some data =>
      match features data, other_members data with
      | None, [] => false
      | _, _ => true
      end
  end.

Definition is_selected (selected_pu : option string) (unit : string) : bool :=
  match selected_pu with
  | Some s => String.eqb unit s
  | None => false
  end.

(** app2.py lines 93-135 *)
Definition page2 (geodesic : Q * Q -> Q * Q -> Exn + Q)
    (ors : list Request -> Request -> Behaviour)
    (polling_units : ref) (ORS_API_KEY : option string) (i : Inputs)
  : M (list Element) :=
  let located := fst (acquire_location i) in
  let lat := fst (snd (acquire_location i)) in
  let lon := snd (snd (acquire_location i)) in
  let n_units := slider i in
  let top := located ++ [Slider "How many nearest polling units to consider" 1 10 5] in
  if truthy lat && truthy lon then
    df_results <- find_closest_polling_units geodesic lat lon polling_units n_units ;;
    let pu_options := map Polling_Unit df_results in
    let selected_pu := st_selectbox pu_options i in
    selected_row <- first (filter (fun r => is_selected selected_pu (Polling_Unit r))
                             df_results) ;;
    let unit_markers :=
      map (fun row =>
             mkMarker (Latitude row, Longitude row)
               (PopupUnit (Polling_Unit row) (Ward row) (LGA row) (State row)
                  (Distance row))
               (if is_selected selected_pu (Polling_Unit row) then "red" else "green"))
          df_results in
    route_geojson <- get_route_geojson ors ORS_API_KEY lon lat
                       (Longitude selected_row) (Latitude selected_row) ;;
    let m :=
      mkFoliumMap (lat, lon) 12
        (mkMarker (lat, lon) (PopupText "You are here") "blue" :: unit_markers)
        (if route_truthy route_geojson then route_geojson else None) in
    ret (top ++ [SubheaderCount n_units "Nearest Polling Units";
                 DataframeClosest df_results;
                 DownloadClosest "Download as CSV" df_results
                   "nearest_polling_units.csv" "text/csv";
                 Selectbox "Select a polling unit to show route:" pu_options;
                 StFolium m])
  else ret top.

(** X12.  A position the device reports on the equator or on the prime
    meridian is thrown away: the success message is shown, then the
    "GPS access denied" warning, and the two number inputs are used.  A
    reported position with both coordinates non-zero is used as it is and
    nothing else is shown. *)
Theorem zero_coordinate_discarded (i : Inputs) (c : Coords) :
  get_geolocation i = Some (Some c) ->
  ((latitude c == 0 \/ longitude c == 0)%Q ->
   acquire_location i =
     ([Success (latitude c) (longitude c);
       Warning "GPS access denied. Please enter coordinates manually.";
       NumberInput "Enter Latitude"; NumberInput "Enter Longitude"],
      (number_input_latitude i, number_input_longitude i))) /\
  (~ (latitude c == 0)%Q -> ~ (longitude c == 0)%Q ->
   acquire_location i =
     ([Success (latitude c) (longitude c)], (latitude c, longitude c))).
Proof.
  intros Hg. unfold acquire_location, truthy. rewrite Hg. cbv zeta. split.
  - intros [H|H]; apply Qeq_bool_iff in H; rewrite H; simpl;
      [reflexivity|rewrite orb_true_r; reflexivity].
  - intros Hlat Hlon.
    destruct (Qeq_bool (latitude c) 0) eqn:E1;
      [apply Qeq_bool_iff in E1; contradiction|].
    destruct (Qeq_bool (longitude c) 0) eqn:E2;
      [apply Qeq_bool_iff in E2; contradiction|].
    reflexivity.
Qed.

(** X13.  The page of app2.py computes nothing when the latitude or the
    longitude it ends up with is zero: it shows the location elements and
    the slider only, allocates no frame and sends no request. *)
Theorem page2_needs_nonzero_position (geodesic : Q * Q -> Q * Q -> Exn + Q)
    (ors : list Request -> Request -> Behaviour)
    (polling_units : ref) (key : option string) (i : Inputs) (w : World) :
  (fst (snd (acquire_location i)) == 0 \/ snd (snd (acquire_location i)) == 0)%Q ->
  page2 geodesic ors polling_units key i w =
    (w, Ok (fst (acquire_location i) ++
            [Slider "How many nearest polling units to consider" 1 10 5])).
Proof.
  intros H. unfold page2. cbv zeta. unfold truthy.
  replace (negb (Qeq_bool (fst (snd (acquire_location i))) 0) &&
           negb (Qeq_bool (snd (snd (acquire_location i))) 0)) with false;
    [reflexivity|].
  destruct H as [H|H]; apply Qeq_bool_iff in H; rewrite H; simpl;
    [reflexivity|rewrite andb_false_r; reflexivity].
Qed.

(** Looking a row up by the name at position [k] finds the first row of
    that name, at or before [k]. *)
Lemma first_of_name {A} (nm : A -> string) (rows : list A) :
  forall k r,
    nth_error rows k = Some r ->
    exists j r' rest,
      filter (fun x => String.eqb (nm x) (nm r)) rows = r' :: rest /\
      (j <= k)%nat /\
      nth_error rows j = Some r' /\
      nm r' = nm r /\
      forall a ra, (a < j)%nat -> nth_error rows a = Some ra -> nm ra <> nm r.
Proof.
  induction rows as [|x rows IH]; intros k r Hk; [destruct k; discriminate|].
  simpl. destruct (String.eqb (nm x) (nm r)) eqn:E.
  - exists 0%nat, x, (filter (fun y => String.eqb (nm y) (nm r)) rows).
    split; [reflexivity|]. split; [lia|]. split; [reflexivity|].
    split; [apply String.eqb_eq, E|]. intros a ra Ha. lia.
  - destruct k as [|k]; simpl in Hk.
    + inversion Hk; subst. rewrite String.eqb_refl in E. discriminate.
    + destruct (IH k r Hk) as [j [r' [rest [Hf [Hj [Hn [Hnm Hbefore]]]]]]].
      exists (S j), r', rest. split; [exact Hf|]. split; [lia|].
      split; [exact Hn|]. split; [exact Hnm|].
      intros [|a] ra Ha Hra; simpl in Hra.
      * inversion Hra; subst. apply String.eqb_neq, E.
      * apply (Hbefore a ra); [lia|exact Hra].
Qed.

(** X14.  The row both pages look up for the name chosen in the select box
    is the first row bearing that name, not necessarily the row chosen: it
    stands at or before the chosen position, and it is the chosen row when
    no two rows share a name. *)
Theorem selected_row_first_of_name (rows : Frame) (k : nat) (r : Row) (w : World) :
  nth_error rows k = Some r ->
  exists j r',
    selected_row_of rows (name r) w = (w, Ok r') /\
    (j <= k)%nat /\
    nth_error rows j = Some r' /\
    name r' = name r /\
    (forall a ra, (a < j)%nat -> nth_error rows a = Some ra -> name ra <> name r) /\
    (NoDup (map name rows) -> r' = r).
Proof.
  intros Hk.
  destruct (first_of_name name rows k r Hk) as [j [r' [rest [Hf [Hj [Hn [Hnm Hb]]]]]]].
  exists j, r'. unfold selected_row_of. rewrite Hf.
  split; [reflexivity|]. split; [exact Hj|]. split; [exact Hn|].
  split; [exact Hnm|]. split; [exact Hb|].
  intros Hnd.
  assert (Hjk : j = k).
  { apply (proj1 (NoDup_nth_error (map name rows)) Hnd).
    - rewrite length_map. apply nth_error_Some. congruence.
    - rewrite !nth_error_map, Hn, Hk. simpl. congruence. }
  subst j. congruence.
Qed.

Lemma located_no_map (i : Inputs) :
  Forall (fun e => forall m, e <> StFolium m) (fst (acquire_location i)).
Proof.
  unfold acquire_location. cbv zeta.
  destruct (get_geolocation i) as [[c|]|]; simpl;
    [destruct (negb (truthy (latitude c)) || negb (truthy (longitude c)))|..];
    simpl; repeat constructor; discriminate.
Qed.

Lemma display_complete (out : Frame) :
  Forall complete_row out ->
  exists table,
    traverse display_row out = inr table /\
    map app.Polling_Unit table = map name out /\
    Forall2 (fun r d => display_row r = inr d) out table.
Proof.
  induction 1 as [|r out [m [d [t [g [_ [Hd [Ht _]]]]]]] Hall [table [Htr [Hnm Hf]]]].
  - exists []. repeat split. constructor.
  - exists (app.mkDisplayRow (name r) (ward r) (lga r) (state r) d t :: table).
    assert (Hr : display_row r =
                 inr (app.mkDisplayRow (name r) (ward r) (lga r) (state r) d t))
      by (unfold display_row; rewrite Hd, Ht; reflexivity).
    simpl. rewrite Hr, Htr, Hnm. repeat split. constructor; assumption.
Qed.

(** X15.  Once the query behind the button has returned, the page of
    app.py renders without raising.  Its table has one line per row of the
    result, in order.  When the select box holds a row with a non-empty
    name, the map is drawn with a red marker at the first row of that name
    and with that row's route as its layer (no layer when the route is
    missing); when it holds none, or a row whose name is empty, no map is
    drawn. *)
Theorem page_after_query (geodesic : Q * Q -> Q * Q -> Exn + Q)
    (ors : list Request -> Request -> Behaviour) (sorter : SortValues)
    (polling_units : ref) (key : option string) (i : Inputs)
    (w w' : World) (out : Frame) :
  button i = true ->
  nearest_pus geodesic ors sorter polling_units key
    (fst (snd (acquire_location i))) (snd (snd (acquire_location i))) (slider i) w
    = (w', Ok out) ->
  exists table shown,
    page geodesic ors sorter polling_units key i w = (w', Ok shown) /\
    Forall2 (fun r d => display_row r = inr d) out table /\
    In (DataframeNearest table) shown /\
    (forall r,
        nth_error out (selectbox i) = Some r -> nonempty (name r) = true ->
        exists r' g,
          selected_row_of out (name r) w' = (w', Ok r') /\
          route_geojson r' = Some g /\
          In (StFolium
                (mkFoliumMap (snd (acquire_location i)) 12
                   [mkMarker (snd (acquire_location i)) (PopupText "Your Location") "blue";
                    mkMarker (geom_y (geometry r'), geom_x (geometry r'))
                      (PopupText (name r' ++ " (" ++ ward r' ++ " Ward)")) "red"]
                   g)) shown) /\
    ((forall r, nth_error out (selectbox i) = Some r -> nonempty (name r) = false) ->
     Forall (fun e => forall m, e <> StFolium m) shown).
Proof.
  intros Hb Hq.
  pose proof (nearest_pus_complete _ _ _ _ _ _ _ _ _ _ _ Hq) as Hc.
  destruct (display_complete out Hc) as [table [Ht [Hopt Hf2]]].
  exists table.
  unfold nearest_pus in Hq. unfold bind in Hq.
  destruct (find_nearest_polling_units geodesic ors sorter polling_units key _ _ _ w)
    as [w1 [pu| |]] eqn:Hfn; try discriminate.
  unfold deref in Hq.
  destruct (nth_error (heap w1) pu) as [f|] eqn:Hd; inversion Hq; subst w1 f. clear Hq.
  unfold page. cbv zeta. rewrite Hb.
  unfold bind at 1. rewrite Hfn.
  unfold bind at 1. unfold deref at 1. rewrite Hd.
  unfold bind at 1. rewrite Ht. unfold lift at 1, ret at 1.
  unfold st_selectbox. rewrite Hopt, nth_error_map.
  destruct (snd (acquire_location i)) as [lat lon] eqn:Hpos. cbn [fst snd].
  pose proof (located_no_map i) as Hloc.
  assert (Hnomap : Forall (fun e => forall m, e <> StFolium m)
            ((fst (acquire_location i) ++
              [Slider "Number of nearest polling units" 1 10 5;
               Button "Find Nearest Polling Units"]) ++
             [Subheader "Nearest Polling Units (sorted by shortest distance)";
              DataframeNearest table;
              DownloadNearest "Download Nearest Polling Units (CSV)" table
                "nearest_polling_units.csv" "text/csv";
              Selectbox "Select a Polling Unit to show route" (map name out)])).
  { repeat (apply Forall_app; split); try exact Hloc;
      repeat constructor; discriminate. }
  destruct (nth_error out (selectbox i)) as [r|] eqn:Hk; cbn [option_map].
  - destruct (nonempty (name r)) eqn:Hne.
    + destruct (first_of_name name out _ r Hk) as [j [r' [rest [Hf [_ [Hn _]]]]]].
      assert (Hr' : complete_row r')
        by (rewrite Forall_forall in Hc; apply Hc; eapply nth_error_In, Hn).
      destruct Hr' as [m [d [t [g [_ [_ [_ [Hg _]]]]]]]].
      eexists. unfold bind at 1. unfold selected_row_of at 1. rewrite Hf.
      unfold first at 1, ret at 1. unfold bind at 1. rewrite Hg.
      unfold getitem at 1, ret at 1. unfold ret.
      split; [reflexivity|]. split; [exact Hf2|].
      split; [apply in_or_app; right; apply in_or_app; left; right; left; reflexivity|].
      split.
      * intros r0 Hr0 _. inversion Hr0; subst r0. exists r', g.
        unfold selected_row_of. rewrite Hf. split; [reflexivity|].
        split; [exact Hg|].
        apply in_or_app; right. apply in_or_app; right. left. reflexivity.
      * intros Hnone. specialize (Hnone r eq_refl). congruence.
    + eexists. unfold ret. split; [reflexivity|]. split; [exact Hf2|].
      split; [apply in_or_app; right; right; left; reflexivity|].
      split.
      * intros r0 Hr0 Hne0. inversion Hr0; subst r0. congruence.
      * intros _. rewrite <- app_assoc in Hnomap. rewrite <- app_assoc. exact Hnomap.
  - eexists. unfold ret. split; [reflexivity|]. split; [exact Hf2|].
    split; [apply in_or_app; right; right; left; reflexivity|].
    split.
    + intros r0 Hr0. discriminate.
    + intros _. rewrite <- app_assoc in Hnomap. rewrite <- app_assoc. exact Hnomap.
Qed.

(** X16.  With a non-zero position, a table from
    [find_closest_polling_units] and a row in the select box, the page of
    app2.py renders whatever the routing provider does.  It sends exactly
    one request, from the position to the first row bearing the chosen
    name; the map is centred on the position and shows one marker per row
    of the table, red for the rows of the chosen name and green for the
    others.  The map has a route layer exactly when [get_route_geojson]
    returned an object with at least one member, and the layer is then that
    object; [None] and the empty object give no layer. *)
Theorem page2_one_request (geodesic : Q * Q -> Q * Q -> Exn + Q)
    (ors : list Request -> Request -> Behaviour)
    (polling_units : ref) (key : option string) (i : Inputs)
    (w w1 : World) (table : list ClosestRow) (r : ClosestRow) :
  truthy (fst (snd (acquire_location i))) && truthy (snd (snd (acquire_location i)))
    = true ->
  find_closest_polling_units geodesic
    (fst (snd (acquire_location i))) (snd (snd (acquire_location i)))
    polling_units (slider i) w = (w1, Ok table) ->
  nth_error table (selectbox i) = Some r ->
  exists w' r' rest shown m route,
    page2 geodesic ors polling_units key i w = (w', Ok shown) /\
    filter (fun x => String.eqb (Polling_Unit x) (Polling_Unit r)) table = r' :: rest /\
    get_route_geojson ors key
      (snd (snd (acquire_location i))) (fst (snd (acquire_location i)))
      (Longitude r') (Latitude r') w1 = (w', Ok route) /\
    wire w' = wire w ++
      [geojson_request key
         (snd (snd (acquire_location i))) (fst (snd (acquire_location i)))
         (Longitude r') (Latitude r')] /\
    In (DataframeClosest table) shown /\
    In (StFolium m) shown /\
    map_location m = snd (acquire_location i) /\
    Forall2 (fun row mk =>
               location mk = (Latitude row, Longitude row) /\
               icon_color mk =
                 if String.eqb (Polling_Unit row) (Polling_Unit r)
                 then "red"%string else "green"%string)
            table (tl (markers m)) /\
    (forall data,
        geojson_layer m = Some data <->
        route = Some data /\ (features data <> None \/ other_members data <> [])).
Proof.
  intros Ht Hc Hk.
  destruct (first_of_name Polling_Unit table _ r Hk) as [j [r' [rest [Hf _]]]].
  pose proof (find_closest_returns _ _ _ _ _ _ _ _ Hc) as [df [g [_ [_ [_ [Hwire _]]]]]].
  unfold page2. cbv zeta. rewrite Ht.
  unfold bind at 1. rewrite Hc.
  unfold st_selectbox. rewrite nth_error_map, Hk. cbn [option_map is_selected].
  unfold bind at 1. rewrite Hf. unfold first at 1, ret at 1.
  unfold bind at 1. rewrite get_route_geojson_eq. cbv zeta.
  destruct (snd (acquire_location i)) as [lat lon] eqn:Hpos. cbn [fst snd].
  eexists _, r', rest, _, (mkFoliumMap _ _ _ _), _. unfold ret.
  split; [reflexivity|]. split; [reflexivity|].
  split; [rewrite get_route_geojson_eq; reflexivity|].
  cbn [wire]. split; [rewrite Hwire; reflexivity|].
  split; [apply in_or_app; right; right; left; reflexivity|].
  split; [apply in_or_app; right; do 4 right; left; reflexivity|].
  cbn [map_location markers tl geojson_layer]. split; [reflexivity|].
  split.
  { clear. induction table as [|row table IH]; simpl; constructor.
    - split; reflexivity.
    - exact IH. }
  intros data. unfold route_truthy.
  destruct (fst (geojson_outcome _)) as [d|];
    [|split; [discriminate|intros [? _]; discriminate]].
  destruct (features d) as [fs|] eqn:Ef.
  - split; [intros Hd; inversion Hd; subst; split; [reflexivity|left; congruence]|
            intros [Hd _]; exact Hd].
  - destruct (other_members d) as [|o os] eqn:Eo.
    + split; [discriminate|].
      intros [Hd [Hn|Hn]]; inversion Hd; subst; congruence.
    + split; [intros Hd; inversion Hd; subst; split; [reflexivity|right; congruence]|
              intros [Hd _]; exact Hd].
Qed.

(** ** The pages on the sample table *)

(** A device at (9 N, 7 E), a count of 2, the button pressed and the second
    option chosen; the same with the device on the equator; and no device,
    with a longitude of 0 typed in. *)
Definition sample_inputs : Inputs :=
  mkInputs (Some (Some (mkCoords 9 7))) 9.082 8.6753 2 true 1.

Definition equator_inputs : Inputs :=
  mkInputs (Some (Some (mkCoords 0 7))) 9.082 8.6753 2 true 1.

Definition meridian_inputs : Inputs :=
  mkInputs None 9.082 0 2 true 1.

(** Two units of one name. *)
Definition twin_units : Frame :=
  [unit_at 0 "PU 001" 7 9; unit_at 1 "PU 007" 8 9; unit_at 2 "PU 007" 6 9].

Definition sample_page_query : World * Outcome Frame :=
  nearest_pus grid_geodesic (ors_with server_error) stable_sorter 0%nat
    (Some "key"%string)
    (fst (snd (acquire_location sample_inputs)))
    (snd (snd (acquire_location sample_inputs))) (slider sample_inputs) sample_world.

Definition sample_page2_table : World * Outcome (list ClosestRow) :=
  find_closest_polling_units grid_geodesic
    (fst (snd (acquire_location sample_inputs)))
    (snd (snd (acquire_location sample_inputs)))
    0%nat (slider sample_inputs) sample_world.

Lemma zero_coordinate_discarded_witness :
  acquire_location equator_inputs =
    ([Success 0 7;
      Warning "GPS access denied. Please enter coordinates manually.";
      NumberInput "Enter Latitude"; NumberInput "Enter Longitude"],
     (9.082, 8.6753)).
Proof.
  destruct (zero_coordinate_discarded equator_inputs (mkCoords 0 7) eq_refl) as [H _].
  apply H. left. reflexivity.
Defined.

Lemma page2_needs_nonzero_position_witness :
  page2 grid_geodesic (ors_with server_error) 0%nat (Some "key"%string)
    meridian_inputs sample_world =
  (sample_world,
   Ok (fst (acquire_location meridian_inputs) ++
       [Slider "How many nearest polling units to consider" 1 10 5])).
Proof.
  apply (page2_needs_nonzero_position grid_geodesic (ors_with server_error) 0%nat
           (Some "key"%string) meridian_inputs sample_world).
  right. reflexivity.
Defined.

(** Choosing the second "PU 007" finds the first. *)
Lemma selected_row_first_of_name_witness :
  exists j r',
    selected_row_of twin_units (name (unit_at 2 "PU 007" 6 9)) sample_world
      = (sample_world, Ok r') /\
    (j <= 2)%nat /\
    nth_error twin_units j = Some r' /\
    name r' = name (unit_at 2 "PU 007" 6 9) /\
    (forall a ra, (a < j)%nat -> nth_error twin_units a = Some ra ->
       name ra <> name (unit_at 2 "PU 007" 6 9)) /\
    (NoDup (map name twin_units) -> r' = unit_at 2 "PU 007" 6 9).
Proof.
  apply (selected_row_first_of_name twin_units 2 (unit_at 2 "PU 007" 6 9) sample_world).
  reflexivity.
Defined.

Lemma page_after_query_witness :
  exists table shown,
    page grid_geodesic (ors_with server_error) stable_sorter 0%nat (Some "key"%string)
      sample_inputs sample_world = (fst sample_page_query, Ok shown) /\
    Forall2 (fun r d => display_row r = inr d) (rows_of (snd sample_page_query)) table /\
    In (DataframeNearest table) shown.
Proof.
  destruct (page_after_query grid_geodesic (ors_with server_error) stable_sorter 0%nat
              (Some "key"%string) sample_inputs sample_world (fst sample_page_query)
              (rows_of (snd sample_page_query)))
    as [table [shown [H1 [H2 [H3 _]]]]].
  - reflexivity.
  - vm_compute. reflexivity.
  - exists table, shown. auto.
Defined.

Lemma page2_one_request_witness :
  exists w' shown,
    page2 grid_geodesic (ors_with server_error) 0%nat (Some "key"%string)
      sample_inputs sample_world = (w', Ok shown) /\
    length (wire w') = S (length (wire sample_world)) /\
    In (DataframeClosest (returned (snd sample_page2_table) [])) shown.
Proof.
  destruct (page2_one_request grid_geodesic (ors_with server_error) 0%nat
              (Some "key"%string) sample_inputs sample_world (fst sample_page2_table)
              (returned (snd sample_page2_table) [])
              (mkClosestRow "PU 002" "Wuse" "Abuja Municipal" "FCT" 9 8
                 (round2 (Fin 111000))))
    as [w' [r' [rest [shown [m [route [H1 [_ [_ [H4 [H5 _]]]]]]]]]]].
  - vm_compute. reflexivity.
  - vm_compute. reflexivity.
  - vm_compute. reflexivity.
  - exists w', shown. split; [exact H1|]. split; [|exact H5].
    rewrite H4, length_app. simpl. lia.
Defined.
